(** * Playwright trace router: the two report searches and their coordinator

    A shallow embedding of [find_test_in_data], [get_attachment_by_name]
    and [get_test_attachments] of [router_app.py], over the JSON values
    that [response.json()] hands to them, with the Python behaviour of the
    operations the three functions apply to those values ([in], [==],
    [.get], iteration, truth value) written out, exceptions included. *)

From Equations Require Import Equations.
From Stdlib Require Import String Ascii List ZArith Bool Arith Lia.
From Stdlib Require Import Floats.SpecFloat.
Import ListNotations.
Local Open Scope string_scope.
Local Open Scope list_scope.

(** ** JSON values as Python objects *)

(** What [json.loads] builds: [None], [bool], [int], [float], [str],
    [list] and [dict].  A dict is kept as its items in insertion order,
    each key once; a key is looked up from the left. *)
#[local] Unset Elimination Schemes.
Inductive json : Type :=
| JNull
| JBool (b : bool)
| JInt (z : Z)
| JFloat (f : spec_float)
| JStr (s : string)
| JArr (items : list json)
| JObj (fields : list (string * json)).
#[local] Set Elimination Schemes.

Abbreviation PyNone := JNull.

(** Exceptions the modelled code can meet, all subclasses of [Exception]. *)
Inductive exn : Type :=
| TypeError
| AttributeError
| RecursionError
| Upstream (what : string).

(** Outcome of evaluating a Python expression or call. *)
Inductive res (A : Type) : Type :=
| Return (a : A)
| Raise (e : exn).
Arguments Return {A} a.
Arguments Raise {A} e.

Definition bind {A B} (m : res A) (k : A -> res B) : res B :=
  match m with
  | Return a => k a
  | Raise e => Raise e
  end.

Notation "x <- m ;; k" := (bind m (fun x => k))
  (at level 61, m at next level, right associativity).

Module Py.

(** [dict_case k f d fields]: [f] of the value stored under [k], or [d]
    when the key is missing. *)
Definition dict_case {B} (k : string) (f : json -> B) (d : B) :=
  fix go (fields : list (string * json)) : B :=
    match fields with
    | [] => d
    | (k', v) :: rest => if String.eqb k k' then f v else go rest
    end.

Definition lookup (fields : list (string * json)) (k : string) : option json :=
  dict_case k Some None fields.

(** [k in d] for a dict [d]. *)
Definition has_key (fields : list (string * json)) (k : string) : bool :=
  dict_case k (fun _ => true) false fields.

(** [d.get(k, default)]. *)
Definition get_or (fields : list (string * json)) (k : string) (default : json) : json :=
  dict_case k (fun v => v) default fields.

(** [d.get(k)]. *)
Definition get (fields : list (string * json)) (k : string) : json :=
  get_or fields k PyNone.

(** [obj.get(k, default)] on any object: only a dict has the method. *)
Definition dot_get_or (obj : json) (k : string) (default : json) : res json :=
  match obj with
  | JObj fields => Return (get_or fields k default)
  | _ => Raise AttributeError
  end.

Definition dot_get (obj : json) (k : string) : res json :=
  dot_get_or obj k PyNone.

(** The empty tuple [()], used only as a default to iterate over. *)
Definition empty_tuple : json := JArr [].

Definition is_dict (v : json) : bool :=
  match v with JObj _ => true | _ => false end.

(** [bool(v)]. *)
Definition truthy (v : json) : bool :=
  match v with
  | JNull => false
  | JBool b => b
  | JInt z => negb (Z.eqb z 0)
  | JFloat (S754_zero _) => false
  | JFloat _ => true
  | JStr s => negb (String.eqb s "")
  | JArr items => match items with [] => false | _ => true end
  | JObj fields => match fields with [] => false | _ => true end
  end.

(** Truth value of a variable that holds a value or [None]. *)
Definition truthy_opt (o : option json) : bool :=
  match o with
  | Some v => truthy v
  | None => false
  end.

(** [v == s] where [s] is a [str]: only an equal [str] compares equal. *)
Definition eq_str (v : json) (s : string) : bool :=
  match v with
  | JStr s' => String.eqb s' s
  | _ => false
  end.

(** [sub in s] for two [str]: [sub] occurs somewhere in [s]. *)
Fixpoint substring (sub s : string) : bool :=
  String.prefix sub s ||
  match s with
  | EmptyString => false
  | String _ s' => substring sub s'
  end.

(** [needle in v] for a [str] needle. *)
Definition contains (needle : string) (v : json) : res bool :=
  match v with
  | JStr s => Return (substring needle s)
  | JArr items => Return (existsb (fun x => eq_str x needle) items)
  | JObj fields => Return (has_key fields needle)
  | _ => Raise TypeError
  end.

(** [a or b] on two tests, the second evaluated only if needed. *)
Definition or_else (a b : res bool) : res bool :=
  x <- a ;; if x then Return true else b.

Fixpoint chars (s : string) : list json :=
  match s with
  | EmptyString => []
  | String c s' => JStr (String c EmptyString) :: chars s'
  end.

(** The items a [for] loop or [list.extend] draws from a value. *)
Definition iter (v : json) : res (list json) :=
  match v with
  | JArr items => Return items
  | JStr s => Return (chars s)
  | JObj fields => Return (map (fun kv => JStr (fst kv)) fields)
  | _ => Raise TypeError
  end.

(** [l.pop()]: the last element and the shortened list. *)
Fixpoint pop {A} (l : list A) : option (list A * A) :=
  match l with
  | [] => None
  | x :: rest =>
      match pop rest with
      | None => Some ([], x)
      | Some (rest', y) => Some (x :: rest', y)
      end
  end.

End Py.

(** ** A measure for the loop of the suite locator *)

(** Loop turns a value on the stack can still cost: a dict is charged
    for everything below it, any other value for its own turn. *)
Fixpoint json_size (v : json) : nat :=
  match v with
  | JStr s => S (String.length s)
  | JArr items => S (list_sum (map json_size items))
  | JObj fields => S (list_sum (map (fun kv => S (json_size (snd kv))) fields))
  | _ => 1
  end.

Definition turns (v : json) : nat :=
  if Py.is_dict v then json_size v else 1.

Definition stack_turns (stack : list json) : nat :=
  list_sum (map turns stack).

Lemma pop_snoc {A} (l : list A) (x : A) : Py.pop (l ++ [x]) = Some (l, x).
Proof.
  induction l as [|y l IH]; simpl; [reflexivity|].
  rewrite IH. reflexivity.
Qed.

Lemma pop_some {A} (l rest : list A) (x : A) :
  Py.pop l = Some (rest, x) -> l = rest ++ [x].
Proof.
  revert rest x. induction l as [|y l IH]; simpl; intros rest x H; [discriminate|].
  destruct (Py.pop l) as [[rest' z]|] eqn:E.
  - inversion H; subst. rewrite (IH _ _ eq_refl). reflexivity.
  - inversion H; subst. destruct l as [|a l]; [reflexivity|].
    simpl in E. destruct (Py.pop l) as [[? ?]|]; discriminate.
Qed.

Lemma stack_turns_app (a b : list json) :
  stack_turns (a ++ b) = stack_turns a + stack_turns b.
Proof. unfold stack_turns. rewrite map_app, list_sum_app. reflexivity. Qed.

Lemma turns_le_size (v : json) : turns v <= json_size v.
Proof. unfold turns. destruct v; simpl; lia. Qed.

Lemma stack_turns_le_size (l : list json) :
  stack_turns l <= list_sum (map json_size l).
Proof.
  unfold stack_turns.
  induction l as [|x l IH]; simpl; [lia|].
  pose proof (turns_le_size x). lia.
Qed.

Lemma stack_turns_chars (s : string) : stack_turns (Py.chars s) = String.length s.
Proof. unfold stack_turns. induction s as [|c s IH]; simpl; [reflexivity|]. lia. Qed.

Lemma stack_turns_keys (fields : list (string * json)) :
  stack_turns (map (fun kv => JStr (fst kv)) fields) = length fields.
Proof. unfold stack_turns. induction fields as [|kv l IH]; simpl; [reflexivity|]. lia. Qed.

Lemma iter_turns (v : json) (items : list json) :
  Py.iter v = Return items -> stack_turns items < json_size v.
Proof.
  destruct v; simpl; intros H; inversion H; subst.
  - rewrite stack_turns_chars. lia.
  - pose proof (stack_turns_le_size items). lia.
  - rewrite stack_turns_keys.
    assert (length fields <= list_sum (map (fun kv => S (json_size (snd kv))) fields)).
    { clear. induction fields; simpl; lia. }
    lia.
Qed.

Lemma lookup_size (fields : list (string * json)) (k : string) (v : json) :
  Py.lookup fields k = Some v -> json_size v < json_size (JObj fields).
Proof.
  unfold Py.lookup. induction fields as [|[k' x] l IH]; simpl; [discriminate|].
  destruct (String.eqb k k').
  - intros H; inversion H; subst. lia.
  - intros H. specialize (IH H). simpl in IH. lia.
Qed.

Lemma get_or_lookup (fields : list (string * json)) (k : string) (d : json) :
  Py.get_or fields k d = match Py.lookup fields k with Some v => v | None => d end.
Proof.
  unfold Py.get_or, Py.lookup. induction fields as [|[k' x] l IH]; simpl; [reflexivity|].
  destruct (String.eqb k k'); auto.
Qed.

Lemma has_key_lookup (fields : list (string * json)) (k : string) :
  Py.has_key fields k = match Py.lookup fields k with Some _ => true | None => false end.
Proof.
  unfold Py.has_key, Py.lookup. induction fields as [|[k' x] l IH]; simpl; [reflexivity|].
  destruct (String.eqb k k'); auto.
Qed.

(** ** Suite locator: [find_test_in_data] *)

Section SuiteLocator.

Variables suite_name test_name : string.

(** What one turn of the [while] loop does with the node it popped. *)
Inductive visit_result : Type :=
| Found (node : json)
| Next (current_suite : json) (pushed : list json).

Definition visit (node current_suite : json) : res visit_result :=
  match node with
  | JObj fields =>
      let name := Py.get_or fields "name" (JStr "") in
      is_suite <- Py.or_else (Py.contains "TestSuite" name)
                             (Py.contains "Test" name) ;;
      let current_suite := if is_suite then name else current_suite in
      if Py.eq_str current_suite suite_name
         && Py.eq_str name test_name
         && Py.has_key fields "uid"
      then Return (Found node)
      else if Py.has_key fields "children"
           then children <- Py.iter (Py.get fields "children") ;;
                Return (Next current_suite children)
           else Return (Next current_suite [])
  | _ => Return (Next current_suite [])
  end.

Lemma visit_next_turns (node cur cur' : json) (pushed : list json) :
  visit node cur = Return (Next cur' pushed) -> stack_turns pushed < turns node.
Proof.
  unfold visit. destruct node; simpl; intros H;
    try (inversion H; subst; unfold stack_turns, turns; simpl; lia).
  destruct (Py.or_else _ _) as [b|e]; simpl in H; [|discriminate].
  destruct (_ && _); [discriminate|].
  rewrite has_key_lookup in H. unfold Py.get in H. rewrite get_or_lookup in H.
  destruct (Py.lookup fields "children") as [c|] eqn:E.
  - destruct (Py.iter c) as [items|e] eqn:Ei; simpl in H; [|discriminate].
    inversion H; subst. apply iter_turns in Ei. apply lookup_size in E.
    unfold turns. simpl in *. lia.
  - inversion H; subst. unfold stack_turns, turns. simpl. lia.
Qed.

Definition inspect {A} (a : A) : {b : A | a = b} := exist _ a eq_refl.

(** The [while stack:] loop, on the Python list [stack] (its last element
    is the one [pop] takes) and the variable [current_suite]. *)
Equations? find_loop (stack : list json) (current_suite : json) : res (option json)
  by wf (stack_turns stack) lt :=
  find_loop stack current_suite with inspect (Py.pop stack) := {
    | exist _ None _ => Return None
    | exist _ (Some (rest, node)) Hpop with inspect (visit node current_suite) := {
        | exist _ (Raise e) _ => Raise e
        | exist _ (Return (Found n)) _ => Return (Some n)
        | exist _ (Return (Next current_suite' pushed)) Hvisit =>
            find_loop (rest ++ pushed) current_suite' } }.
Proof.
  apply pop_some in Hpop. subst stack.
  apply visit_next_turns in Hvisit.
  rewrite !stack_turns_app.
  replace (stack_turns [node]) with (turns node) by (unfold stack_turns; simpl; lia).
  lia.
Qed.

End SuiteLocator.

Definition find_test_in_data (json_data : json) (suite_name test_name : string)
  : res (option json) :=
  find_loop suite_name test_name [json_data] PyNone.

(** ** Attachment locator: [get_attachment_by_name] *)

Section AttachmentLocator.

Variable name : string.

(** [for att in attachments: if att.get('name') == name: return att] *)
Definition scan_attachments (attachments : json) : res (option json) :=
  items <- Py.iter attachments ;;
  (fix loop (items : list json) : res (option json) :=
     match items with
     | [] => Return None
     | att :: rest =>
         n <- Py.dot_get att "name" ;;
         if Py.eq_str n name then Return (Some att) else loop rest
     end) items.

(** The inner [for] of each of the three loops, on one stage or step. *)
Definition own_attachment (stage : json) : res (option json) :=
  attachments <- Py.dot_get_or stage "attachments" Py.empty_tuple ;;
  scan_attachments attachments.

(** The nested function [_search_steps].  [frames] is the number of
    nested calls of it that the interpreter's recursion limit still
    allows: a call made when none is left raises [RecursionError], and each
    call leaves one less to the calls inside it.  A [str] or a [dict] given
    as [steps] yields [str] items, on which [step.get] raises. *)
Fixpoint search_steps (frames : nat) (steps : json) {struct steps}
  : res (option json) :=
  match frames with
  | O => Raise RecursionError
  | S frames' =>
      match steps with
      | JArr items =>
          (fix loop (items : list json) : res (option json) :=
             match items with
             | [] => Return None
             | step :: rest =>
                 found <- own_attachment step ;;
                 match found with
                 | Some att => Return (Some att)
                 | None =>
                     match step with
                     | JObj fields =>
                         Py.dict_case "steps"
                           (fun sub =>
                              if Py.truthy sub
                              then result <- search_steps frames' sub ;;
                                   if Py.truthy_opt result then Return result
                                   else loop rest
                              else loop rest)
                           (loop rest) fields
                     | _ => Raise AttributeError
                     end
                 end
             end) items
      | _ =>
          items <- Py.iter steps ;;
          match items with
          | [] => Return None
          | _ :: _ => Raise AttributeError
          end
      end
  end.

(** One of the two [for stage in ...] loops of the function body, with
    [frames] nested calls of [_search_steps] still allowed. *)
Definition search_stages (frames : nat) (stages : json) : res (option json) :=
  items <- Py.iter stages ;;
  (fix loop (items : list json) : res (option json) :=
     match items with
     | [] => Return None
     | stage :: rest =>
         found <- own_attachment stage ;;
         match found with
         | Some att => Return (Some att)
         | None =>
             sub <- Py.dot_get stage "steps" ;;
             if Py.truthy sub
             then result <- search_steps frames sub ;;
                  if Py.truthy_opt result then Return result else loop rest
             else loop rest
         end
     end) items.

End AttachmentLocator.

(** [get_attachment_by_name(test_result, name)], run where the recursion
    limit still allows [frames] nested calls of [_search_steps]. *)
Definition get_attachment_by_name (frames : nat) (test_result : json) (name : string)
  : res (option json) :=
  before <- Py.dot_get_or test_result "beforeStages" Py.empty_tuple ;;
  found <- search_stages name frames before ;;
  match found with
  | Some att => Return (Some att)
  | None =>
      after <- Py.dot_get_or test_result "afterStages" Py.empty_tuple ;;
      search_stages name frames after
  end.

(** ** Lookup coordinator: [get_test_attachments] *)

(** What a run does to the outside, in order. *)
Inductive event : Type :=
| HttpGet (url : string)
| LogInfo (message : string)
| LogError (message : string).

(** A computation that leaves a trace of events and ends in a value or an
    exception. *)
Definition io (A : Type) : Type := (list event * res A)%type.

Definition io_ret {A} (a : A) : io A := ([], Return a).

Definition io_bind {A B} (m : io A) (k : A -> io B) : io B :=
  match m with
  | (t1, Return a) => let (t2, r) := k a in (t1 ++ t2, r)
  | (t1, Raise e) => (t1, Raise e)
  end.

Definition emit (e : event) : io unit := ([e], Return tt).

Definition lift {A} (r : res A) : io A := ([], r).

(** [try: body except Exception as e: handler e] *)
Definition try_except {A} (body : io A) (handler : exn -> io A) : io A :=
  match body with
  | (t1, Return a) => (t1, Return a)
  | (t1, Raise e) => let (t2, r) := handler e in (t1 ++ t2, r)
  end.

Notation "x <~ m ;; k" := (io_bind m (fun x => k))
  (at level 61, m at next level, right associativity).
Notation "m >> k" := (io_bind m (fun _ => k))
  (at level 61, right associativity).

(** The response object of [requests], as far as the coordinator uses it. *)
Record Response : Type := {
  raise_for_status : res unit;
  json_body : res json
}.

Section Coordinator.

(** How many nested calls of [_search_steps] the interpreter's recursion
    limit still allows where the coordinator calls the attachment
    locator. *)
Variable frames : nat.

(** The environment setting, as the f-strings print it. *)
Variable ALLURE_SERVER : string.

(** [requests.get(url, timeout=REQUEST_TIMEOUT)]. *)
Variable requests_get : string -> res Response.

(** The text an f-string gives a value that is neither [str], [None] nor
    [bool], and the text of an exception. *)
Variable repr_value : json -> string.
Variable str_exn : exn -> string.

Definition py_str (v : json) : string :=
  match v with
  | JStr s => s
  | JNull => "None"
  | JBool true => "True"
  | JBool false => "False"
  | _ => repr_value v
  end.

Definition TRACE_ATTACHMENT : string := "Test Tracing".

Definition suites_url (project_id : string) : string :=
  ALLURE_SERVER ++ "/allure-docker-service/projects/" ++ project_id
    ++ "/reports/latest/data/suites.json".

Definition test_case_url (project_id : string) (test_uid : json) : string :=
  ALLURE_SERVER ++ "/allure-docker-service/projects/" ++ project_id
    ++ "/reports/latest/data/test-cases/" ++ py_str test_uid ++ ".json".

(** [requests.get], [raise_for_status()] and [json()] in a row. *)
Definition fetch_json (url : string) : io json :=
  emit (HttpGet url) >>
  response <~ lift (requests_get url) ;;
  lift (raise_for_status response) >>
  lift (json_body response).

(** The three calls all succeed and [url] yields [data]. *)
Definition fetch_ok (url : string) (data : json) : Prop :=
  exists response,
    requests_get url = Return response
    /\ raise_for_status response = Return tt
    /\ json_body response = Return data.

(** A transport error, a non-success status, or a body that does not
    parse: one of the three calls raises [e]. *)
Definition fetch_fails (url : string) (e : exn) : Prop :=
  requests_get url = Raise e
  \/ exists response,
       requests_get url = Return response
       /\ (raise_for_status response = Raise e
           \/ raise_for_status response = Return tt
              /\ json_body response = Raise e).

(** The ways a resolution can fail with an exception [e]: either fetch
    fails, or a fetched body is not of the expected shape and a locator
    raises on it. *)
Inductive resolution_fails (project_id suite_name test_name : string) (e : exn) : Prop :=
| suites_fetch_fails :
    fetch_fails (suites_url project_id) e ->
    resolution_fails project_id suite_name test_name e
| suites_malformed data :
    fetch_ok (suites_url project_id) data ->
    find_test_in_data data suite_name test_name = Raise e ->
    resolution_fails project_id suite_name test_name e
| record_fetch_fails data node uid :
    fetch_ok (suites_url project_id) data ->
    find_test_in_data data suite_name test_name = Return (Some node) ->
    Py.dot_get node "uid" = Return uid ->
    Py.truthy uid = true ->
    fetch_fails (test_case_url project_id uid) e ->
    resolution_fails project_id suite_name test_name e
| record_malformed data node uid record :
    fetch_ok (suites_url project_id) data ->
    find_test_in_data data suite_name test_name = Return (Some node) ->
    Py.dot_get node "uid" = Return uid ->
    Py.truthy uid = true ->
    fetch_ok (test_case_url project_id uid) record ->
    get_attachment_by_name frames record TRACE_ATTACHMENT = Raise e ->
    resolution_fails project_id suite_name test_name e.

(** [attachment_dict.get('source') if attachment_dict else None] *)
Definition source_of (attachment_dict : option json) : res json :=
  match attachment_dict with
  | Some att => if Py.truthy att then Py.dot_get att "source" else Return PyNone
  | None => Return PyNone
  end.

(** The body of the [try]. *)
Definition resolve (project_id suite_name test_name : string) : io json :=
  let url := suites_url project_id in
  emit (LogInfo ("Fetching suites from: " ++ url)) >>
  suites_data <~ fetch_json url ;;
  test_data <~ lift (find_test_in_data suites_data suite_name test_name) ;;
  if negb (Py.truthy_opt test_data)
  then emit (LogError ("Test not found: " ++ suite_name ++ "/" ++ test_name)) >>
       io_ret PyNone
  else
    test_uid <~ lift (match test_data with
                      | Some node => Py.dot_get node "uid"
                      | None => Raise AttributeError
                      end) ;;
    if Py.truthy test_uid
    then
      let result_url := test_case_url project_id test_uid in
      emit (LogInfo ("Fetching test details from: " ++ result_url)) >>
      result_data <~ fetch_json result_url ;;
      attachment_dict <~ lift (get_attachment_by_name frames result_data TRACE_ATTACHMENT) ;;
      shown <~ lift (source_of attachment_dict) ;;
      emit (LogInfo ("Found attachment: " ++ py_str shown)) >>
      lift (source_of attachment_dict)
    else io_ret PyNone.

Definition get_test_attachments (project_id suite_name test_name : string) : io json :=
  try_except
    (resolve project_id suite_name test_name)
    (fun e =>
       emit (LogError ("Error fetching test attachments: " ++ str_exn e)) >>
       io_ret PyNone).

End Coordinator.

(** ** The report tree and the search order, as the specification words them *)

Module ReportNode.

(** A well-formed ReportNode: a dict whose [name], if any, is a string
    and whose [children], if any, is a list of ReportNodes.  [uid] and
    any further key are free. *)
Fixpoint wf (v : json) : bool :=
  match v with
  | JObj fields =>
      Py.dict_case "name"
        (fun n => match n with JStr _ => true | _ => false end) true fields
      && Py.dict_case "children"
           (fun c => match c with
                     | JArr items => forallb wf items
                     | _ => false
                     end) true fields
  | _ => false
  end.

Definition name (v : json) : json :=
  match v with
  | JObj fields => Py.get_or fields "name" (JStr "")
  | _ => JStr ""
  end.

Definition has_uid (v : json) : bool :=
  match v with
  | JObj fields => Py.has_key fields "uid"
  | _ => false
  end.

Definition children (v : json) : list json :=
  match v with
  | JObj fields =>
      match Py.lookup fields "children" with
      | Some (JArr items) => items
      | _ => []
      end
  | _ => []
  end.

(** Depth-first order with siblings taken from the last listed to the
    first listed: a node, then the whole subtree of its last child, then
    that of the child before it, and so on.  No subtree is left out. *)
Fixpoint dfs_order (v : json) : list json :=
  v :: match v with
       | JObj fields =>
           Py.dict_case "children"
             (fun c => match c with
                       | JArr items => concat (rev (map dfs_order items))
                       | _ => []
                       end) [] fields
       | _ => []
       end.

(** A node is suite-like when its name contains "TestSuite" or "Test". *)
Definition suite_like (v : json) : bool :=
  match name v with
  | JStr s => Py.substring "TestSuite" s || Py.substring "Test" s
  | _ => false
  end.

(** [sub] occurs in [s], stated on the text. *)
Definition occurs_in (sub s : string) : Prop :=
  exists before after : string, s = (before ++ sub ++ after)%string.

Section Query.

Variables suiteName testName : string.

(** The match condition against a given suite context. *)
Definition matches (currentSuiteName node : json) : bool :=
  Py.eq_str currentSuiteName suiteName
  && Py.eq_str (name node) testName
  && has_uid node.

(** The first match along an order of visit, the context being one
    value carried from node to node and overwritten at each suite-like
    node, before that node is tested. *)
Fixpoint first_match (currentSuiteName : json) (order : list json) : option json :=
  match order with
  | [] => None
  | node :: rest =>
      let currentSuiteName :=
        if suite_like node then name node else currentSuiteName in
      if matches currentSuiteName node then Some node
      else first_match currentSuiteName rest
  end.

(** The suite context after a sequence of visits: the name of the
    suite-like node visited most recently, whatever its place in the
    tree; [None] before any. *)
Definition suite_context (visited : list json) : json :=
  match find suite_like (rev visited) with
  | Some suite => name suite
  | None => PyNone
  end.

(** [node], visited after [visited], qualifies for the query. *)
Definition qualifies (visited : list json) (node : json) : bool :=
  matches (suite_context (visited ++ [node])) node.

(** All the nodes of [todo] that qualify when [todo] is visited in
    order after [visited], the search not stopping at the first. *)
Fixpoint qualifying_nodes (visited todo : list json) : list json :=
  match todo with
  | [] => []
  | node :: rest =>
      (if qualifies visited node then [node] else [])
      ++ qualifying_nodes (visited ++ [node]) rest
  end.

(** The nodes named [testName] that carry a uid and lie, in the tree,
    below a node named [suiteName]. *)
Fixpoint tests_under (inside : bool) (v : json) : list json :=
  match v with
  | JObj fields =>
      (if inside && Py.eq_str (name v) testName && has_uid v then [v] else [])
      ++ Py.dict_case "children"
           (fun c => match c with
                     | JArr items =>
                         concat (map (tests_under
                                        (inside || Py.eq_str (name v) suiteName))
                                     items)
                     | _ => []
                     end) [] fields
  | _ => []
  end.

End Query.

End ReportNode.

Module ExecutionRecord.

(** A list of attachments, each a dict. *)
Definition wf_attachments (v : json) : bool :=
  match v with
  | JArr items => forallb Py.is_dict items
  | _ => false
  end.

(** A stage or a step: a dict whose [attachments], if any, is a list of
    attachments and whose [steps], if any, is a list of steps. *)
Fixpoint wf_stage (v : json) : bool :=
  match v with
  | JObj fields =>
      Py.dict_case "attachments" wf_attachments true fields
      && Py.dict_case "steps"
           (fun s => match s with
                     | JArr items => forallb wf_stage items
                     | _ => false
                     end) true fields
  | _ => false
  end.

Definition wf_stages (v : json) : bool :=
  match v with
  | JArr items => forallb wf_stage items
  | _ => false
  end.

(** A well-formed ExecutionRecord: a dict whose [beforeStages] and
    [afterStages], if any, are lists of stages. *)
Definition wf (v : json) : bool :=
  match v with
  | JObj fields =>
      Py.dict_case "beforeStages" wf_stages true fields
      && Py.dict_case "afterStages" wf_stages true fields
  | _ => false
  end.

(** The attachments a stage or step holds itself, in listed order. *)
Definition own_attachments (stage : json) : list json :=
  match stage with
  | JObj fields =>
      match Py.lookup fields "attachments" with
      | Some (JArr items) => items
      | _ => []
      end
  | _ => []
  end.

(** The attachments of a stage or step in the order of the search: its
    own, then those of each nested step in turn, each step's own before
    those of the steps inside it. *)
Fixpoint stage_attachments (stage : json) : list json :=
  own_attachments stage
  ++ match stage with
     | JObj fields =>
         Py.dict_case "steps"
           (fun s => match s with
                     | JArr items => concat (map stage_attachments items)
                     | _ => []
                     end) [] fields
     | _ => []
     end.

(** The steps directly inside a stage or step, in listed order. *)
Definition steps (stage : json) : list json :=
  match stage with
  | JObj fields =>
      match Py.lookup fields "steps" with
      | Some (JArr items) => items
      | _ => []
      end
  | _ => []
  end.

Definition stages_attachments (stages : json) : list json :=
  match stages with
  | JArr items => concat (map stage_attachments items)
  | _ => []
  end.

Definition before_attachments (record : json) : list json :=
  match record with
  | JObj fields => stages_attachments (Py.get_or fields "beforeStages" (JArr []))
  | _ => []
  end.

Definition after_attachments (record : json) : list json :=
  match record with
  | JObj fields => stages_attachments (Py.get_or fields "afterStages" (JArr []))
  | _ => []
  end.

(** The whole search order: everything under [beforeStages], then
    everything under [afterStages]. *)
Definition search_order (record : json) : list json :=
  before_attachments record ++ after_attachments record.

(** The attachment's [name] equals [attachmentName]. *)
Definition named (attachmentName : string) (attachment : json) : bool :=
  match attachment with
  | JObj fields => Py.eq_str (Py.get fields "name") attachmentName
  | _ => false
  end.

Definition source (attachment : json) : json :=
  match attachment with
  | JObj fields => Py.get fields "source"
  | _ => PyNone
  end.

(** How deep the steps of a stage or step are nested: 0 when it has no
    steps, one more than its deepest step otherwise.  This is the number
    of nested calls of [_search_steps] that searching it through can
    take. *)
Fixpoint nesting (stage : json) : nat :=
  match stage with
  | JObj fields =>
      Py.dict_case "steps"
        (fun s => match s with
                  | JArr [] => 0
                  | JArr items => S (list_max (map nesting items))
                  | _ => 0
                  end) 0 fields
  | _ => 0
  end.

Definition stages_nesting (stages : json) : nat :=
  match stages with
  | JArr items => list_max (map nesting items)
  | _ => 0
  end.

(** The deepest nesting of steps anywhere in a record. *)
Definition record_nesting (record : json) : nat :=
  match record with
  | JObj fields =>
      Nat.max (stages_nesting (Py.get_or fields "beforeStages" (JArr [])))
              (stages_nesting (Py.get_or fields "afterStages" (JArr [])))
  | _ => 0
  end.

End ExecutionRecord.

(** ** Fixtures *)

Module Fixture.

Definition test_a : json := JObj [("name", JStr "test_a"); ("uid", JStr "u1")].

(** A suite holding one test and, listed after it, a nested suite. *)
Definition suite_with_nested_suite : json :=
  JObj [("name", JStr "TestSuiteA");
        ("children", JArr [test_a;
                           JObj [("name", JStr "TestSuiteB"); ("children", JArr [])]])].

(** Two suites that each hold a test of the same name. *)
Definition two_suites : json :=
  JObj [("name", JStr "suites");
        ("children",
         JArr [JObj [("name", JStr "TestLogin");
                     ("children", JArr [JObj [("name", JStr "test_ok"); ("uid", JStr "first")];
                                        JObj [("name", JStr "test_ok"); ("uid", JStr "second")]])];
               JObj [("name", JStr "TestLogout");
                     ("children", JArr [JObj [("name", JStr "test_ok"); ("uid", JStr "third")]])]])].

(** The summary tree of the end-to-end scenario. *)
Definition scenario_suites : json :=
  JObj [("name", JStr "TestSuitePaginationScansList");
        ("children",
         JArr [JObj [("name", JStr "test_scans_list_artifact_pagination");
                     ("uid", JStr "abc123")]])].

Definition trace_attachment : json :=
  JObj [("name", JStr "Test Tracing"); ("source", JStr "trace-file-xyz.zip")].

(** The execution record of the end-to-end scenario. *)
Definition scenario_record : json :=
  JObj [("beforeStages", JArr []);
        ("afterStages",
         JArr [JObj [("attachments", JArr [trace_attachment]); ("steps", JArr [])]])].

Definition deep_attachment : json :=
  JObj [("name", JStr "Test Tracing"); ("source", JStr "deep.zip")].

(** The attachment three steps deep under the second [beforeStages]
    entry, and one of the same name at the top of [afterStages]. *)
Definition nested_record : json :=
  JObj [("beforeStages",
         JArr [JObj [("attachments", JArr [JObj [("name", JStr "log"); ("source", JStr "log.txt")]]);
                     ("steps", JArr [])];
               JObj [("attachments", JArr []);
                     ("steps",
                      JArr [JObj [("attachments", JArr []);
                                  ("steps",
                                   JArr [JObj [("attachments", JArr []);
                                               ("steps",
                                                JArr [JObj [("attachments", JArr [deep_attachment]);
                                                            ("steps", JArr [])]])]])]])]]);
        ("afterStages",
         JArr [JObj [("attachments", JArr [trace_attachment]); ("steps", JArr [])]])].

(** A summary tree whose only test carries an empty uid. *)
Definition empty_uid_suites : json :=
  JObj [("name", JStr "TestSuiteA");
        ("children", JArr [JObj [("name", JStr "test_a"); ("uid", JStr "")]])].

Definition server : string := "http://allure:5050".

Definition ok (data : json) : res Response :=
  Return {| raise_for_status := Return tt; json_body := Return data |}.

(** A reporting service that serves one summary tree and one record. *)
Definition service (suites record : json) (url : string) : res Response :=
  if String.eqb url
       "http://allure:5050/allure-docker-service/projects/P1/reports/latest/data/suites.json"
  then ok suites
  else if String.eqb url
       "http://allure:5050/allure-docker-service/projects/P1/reports/latest/data/test-cases/abc123.json"
  then ok record
  else Return {| raise_for_status := Raise (Upstream "HTTPError: 404");
                 json_body := Raise (Upstream "JSONDecodeError") |}.

(** A reporting service that cannot be reached. *)
Definition unreachable (url : string) : res Response :=
  Raise (Upstream "ConnectionError").

Definition no_repr (v : json) : string := "".

Definition exn_text (e : exn) : string :=
  match e with
  | TypeError => "TypeError"
  | AttributeError => "AttributeError"
  | RecursionError => "maximum recursion depth exceeded"
  | Upstream what => what
  end.

(** Percent-encoding as [urllib.parse.quote] does it on the UTF-8 bytes of
    a text: letters, digits, the four marks [_.-~] and the characters of
    [safe] stand; any other byte becomes [%] and two upper-case hex
    digits. *)
Definition always_safe (c : ascii) : bool :=
  let n := nat_of_ascii c in
  (Nat.leb 65 n && Nat.leb n 90) || (Nat.leb 97 n && Nat.leb n 122)
  || (Nat.leb 48 n && Nat.leb n 57)
  || existsb (Ascii.eqb c) (list_ascii_of_string "_.-~").

Definition hex_digit (n : nat) : ascii :=
  nth n (list_ascii_of_string "0123456789ABCDEF") "0"%char.

Fixpoint quote (safe : string) (text : string) : string :=
  match text with
  | EmptyString => EmptyString
  | String c rest =>
      if always_safe c || existsb (Ascii.eqb c) (list_ascii_of_string safe)
      then String c (quote safe rest)
      else let n := nat_of_ascii c in
           String "%" (String (hex_digit (Nat.div n 16))
                              (String (hex_digit (Nat.modulo n 16))
                                      (quote safe rest)))
  end.

(** A [Location] header made as the web framework's [RedirectResponse]
    makes it: the url quoted, the characters of a URL's syntax kept. *)
Definition location (url : string) : string :=
  quote ":/%#?=@[]!$&'()*+,;" url.

(** A recursion budget as a server leaves it: the interpreter's default
    limit is 1000 frames, of which the server and the coordinator hold a
    part. *)
Definition frames : nat := 900.

(** A stage without attachments whose steps are nested [depth] deep, one
    step inside the other. *)
Fixpoint nested_steps (depth : nat) : json :=
  match depth with
  | O => JObj [("attachments", JArr []); ("steps", JArr [])]
  | S depth' => JObj [("attachments", JArr []); ("steps", JArr [nested_steps depth'])]
  end.

(** A record whose only stage holds such a chain of steps. *)
Definition deep_record (depth : nat) : json :=
  JObj [("beforeStages", JArr [nested_steps depth]); ("afterStages", JArr [])].

End Fixture.

(** ** The model on a few inputs *)

(** A root that is not a dict is popped and skipped. *)
Example root_not_a_dict :
  find_test_in_data (JArr [Fixture.test_a]) "TestSuiteA" "test_a" = Return None.
Proof. reflexivity. Qed.

(** [in] on a number raises. *)
Example name_not_a_string :
  find_test_in_data (JObj [("name", JInt 5)]) "TestSuiteA" "test_a" = Raise TypeError.
Proof. reflexivity. Qed.

(** [extend] on a string pushes its characters, which are skipped. *)
Example children_a_string :
  find_test_in_data (JObj [("name", JStr "TestSuiteA"); ("children", JStr "ab")])
                    "TestSuiteA" "test_a"
  = Return None.
Proof. reflexivity. Qed.

Example children_null :
  find_test_in_data (JObj [("name", JStr "TestSuiteA"); ("children", JNull)])
                    "TestSuiteA" "test_a"
  = Raise TypeError.
Proof. reflexivity. Qed.

(** The context is overwritten before the node is tested: a suite-like
    node with a uid matches a query for its own name as suite and test. *)
Example suite_like_node_matches_itself :
  find_test_in_data (JObj [("name", JStr "TestLogin"); ("uid", JStr "u7")])
                    "TestLogin" "TestLogin"
  = Return (Some (JObj [("name", JStr "TestLogin"); ("uid", JStr "u7")])).
Proof. reflexivity. Qed.

(** A test whose own name contains "Test" replaces the context of its
    suite and is not found under it. *)
Example test_named_like_a_suite :
  find_test_in_data
    (JObj [("name", JStr "TestSuiteA");
           ("children", JArr [JObj [("name", JStr "TestLogin"); ("uid", JStr "u7")]])])
    "TestSuiteA" "TestLogin"
  = Return None.
Proof. reflexivity. Qed.

Example record_not_a_dict :
  get_attachment_by_name Fixture.frames (JArr []) "Test Tracing" = Raise AttributeError.
Proof. reflexivity. Qed.

Example stages_null :
  get_attachment_by_name Fixture.frames (JObj [("beforeStages", JNull)]) "Test Tracing"
  = Raise TypeError.
Proof. reflexivity. Qed.

(** [steps] that is a non-empty string: its characters have no [get]. *)
Example steps_a_string :
  get_attachment_by_name
    Fixture.frames (JObj [("beforeStages", JArr [JObj [("steps", JStr "x")]])]) "Test Tracing"
  = Raise AttributeError.
Proof. reflexivity. Qed.

(** A summary tree of the wrong shape: the error is logged and the
    coordinator returns [None]. *)
Example malformed_suites_collapse :
  get_test_attachments Fixture.frames Fixture.server
    (Fixture.service (JObj [("name", JInt 5)]) Fixture.scenario_record)
    Fixture.no_repr Fixture.exn_text "P1" "TestSuiteA" "test_a"
  = ([LogInfo "Fetching suites from: http://allure:5050/allure-docker-service/projects/P1/reports/latest/data/suites.json";
      HttpGet "http://allure:5050/allure-docker-service/projects/P1/reports/latest/data/suites.json";
      LogError "Error fetching test attachments: TypeError"],
     Return PyNone).
Proof. reflexivity. Qed.

(** The whole trace of the end-to-end scenario. *)
Example scenario_trace :
  get_test_attachments Fixture.frames Fixture.server
    (Fixture.service Fixture.scenario_suites Fixture.scenario_record)
    Fixture.no_repr Fixture.exn_text
    "P1" "TestSuitePaginationScansList" "test_scans_list_artifact_pagination"
  = ([LogInfo "Fetching suites from: http://allure:5050/allure-docker-service/projects/P1/reports/latest/data/suites.json";
      HttpGet "http://allure:5050/allure-docker-service/projects/P1/reports/latest/data/suites.json";
      LogInfo "Fetching test details from: http://allure:5050/allure-docker-service/projects/P1/reports/latest/data/test-cases/abc123.json";
      HttpGet "http://allure:5050/allure-docker-service/projects/P1/reports/latest/data/test-cases/abc123.json";
      LogInfo "Found attachment: trace-file-xyz.zip"],
     Return (JStr "trace-file-xyz.zip")).
Proof. reflexivity. Qed.

(** ** Facts about the Python primitives *)

Lemma dict_case_lookup {B} (k : string) (f : json -> B) (d : B)
      (fields : list (string * json)) :
  Py.dict_case k f d fields =
  match Py.lookup fields k with Some v => f v | None => d end.
Proof.
  unfold Py.lookup. induction fields as [|[k' x] l IH]; simpl; [reflexivity|].
  destruct (String.eqb k k'); auto.
Qed.

Lemma prefix_occurs (sub s : string) :
  String.prefix sub s = true <-> exists after, s = (sub ++ after)%string.
Proof.
  revert s. induction sub as [|c sub IH]; intros s; simpl.
  - split; [intros _; exists s; reflexivity | destruct s; reflexivity].
  - destruct s as [|c' s]; simpl.
    + split; [discriminate | intros [after H]; discriminate].
    + destruct (Ascii.ascii_dec c c') as [->|Hne].
      * rewrite IH. split; intros [after H]; exists after.
        -- now rewrite H.
        -- now inversion H.
      * split; [discriminate | intros [after H]; inversion H; congruence].
Qed.

Lemma substring_occurs (sub s : string) :
  Py.substring sub s = true <-> ReportNode.occurs_in sub s.
Proof.
  unfold ReportNode.occurs_in. induction s as [|c s IH].
  - change (Py.substring sub "") with (String.prefix sub "" || false).
    rewrite orb_false_r, prefix_occurs. split.
    + intros [after H]. exists "", after. exact H.
    + intros [before [after H]]. destruct before; simpl in H.
      * exists after. exact H.
      * discriminate.
  - change (Py.substring sub (String c s))
      with (String.prefix sub (String c s) || Py.substring sub s).
    rewrite orb_true_iff, prefix_occurs, IH. split.
    + intros [[after H]|[before [after H]]].
      * exists "", after. exact H.
      * exists (String c before), after. simpl. now rewrite H.
    + intros [before [after H]]. destruct before as [|c' before]; simpl in H.
      * left. exists after. exact H.
      * right. inversion H. exists before, after. reflexivity.
Qed.

(** ** The loop of [find_test_in_data], one turn at a time *)

Lemma find_loop_step (suite_name test_name : string) (stack : list json) (cur : json) :
  find_loop suite_name test_name stack cur =
  match Py.pop stack with
  | None => Return None
  | Some (rest, node) =>
      match visit suite_name test_name node cur with
      | Raise e => Raise e
      | Return (Found n) => Return (Some n)
      | Return (Next cur' pushed) => find_loop suite_name test_name (rest ++ pushed) cur'
      end
  end.
Proof.
  rewrite find_loop_equation_1. unfold inspect.
  enough (H : forall o (e : Py.pop stack = o),
             find_loop_unfold_clause_1 suite_name test_name stack (exist _ o e) cur =
             match o with
             | None => Return None
             | Some (rest, node) =>
                 match visit suite_name test_name node cur with
                 | Raise e => Raise e
                 | Return (Found n) => Return (Some n)
                 | Return (Next cur' pushed) =>
                     find_loop suite_name test_name (rest ++ pushed) cur'
                 end
             end) by apply H.
  intros [[rest node]|] e; simpl; [|reflexivity].
  destruct (visit suite_name test_name node cur) as [[n|cur' pushed]|x]; reflexivity.
Qed.

Lemma find_loop_empty (suite_name test_name : string) (cur : json) :
  find_loop suite_name test_name [] cur = Return None.
Proof. rewrite find_loop_step. reflexivity. Qed.

Lemma find_loop_top (suite_name test_name : string) (rest : list json) (node cur : json) :
  find_loop suite_name test_name (rest ++ [node]) cur =
  match visit suite_name test_name node cur with
  | Raise e => Raise e
  | Return (Found n) => Return (Some n)
  | Return (Next cur' pushed) => find_loop suite_name test_name (rest ++ pushed) cur'
  end.
Proof. rewrite find_loop_step, pop_snoc. reflexivity. Qed.

Section SuiteLocatorFacts.

Variables suite_name test_name : string.

Import ReportNode.

(** On a well-formed node, one turn of the loop is the specification's
    rule: overwrite the context if the node is suite-like, then test. *)
Lemma visit_wf (node cur : json) :
  wf node = true ->
  visit suite_name test_name node cur =
  Return (let cur' := if suite_like node then name node else cur in
          if matches suite_name test_name cur' node then Found node
          else Next cur' (children node)).
Proof.
  destruct node as [| | | | |items|fields]; try discriminate. simpl.
  rewrite !dict_case_lookup. intros H. apply andb_true_iff in H as [Hn Hc].
  unfold visit, suite_like, matches, name, has_uid, children.
  rewrite get_or_lookup.
  assert (Hs : exists s, match Py.lookup fields "name" with
                         | Some v => v | None => JStr "" end = JStr s).
  { destruct (Py.lookup fields "name") as [[]|]; try discriminate; eauto. }
  destruct Hs as [s Hs]. rewrite Hs. simpl.
  destruct (Py.substring "TestSuite" s) eqn:E1; simpl;
    [| destruct (Py.substring "Test" s) eqn:E2; simpl ].
  all: match goal with |- context [if ?c then Return (Found _) else _] =>
         destruct c end; [reflexivity|].
  all: rewrite has_key_lookup; unfold Py.get; rewrite get_or_lookup.
  all: destruct (Py.lookup fields "children") as [[]|]; try discriminate; reflexivity.
Qed.

Lemma wf_children (node : json) :
  wf node = true -> Forall (fun c => wf c = true) (children node).
Proof.
  destruct node as [| | | | |items|fields]; try discriminate. simpl.
  rewrite !dict_case_lookup. intros H. apply andb_true_iff in H as [_ Hc].
  destruct (Py.lookup fields "children") as [[]|]; try discriminate; auto.
  apply Forall_forall. now apply forallb_forall.
Qed.

Lemma dfs_order_node (node : json) :
  wf node = true ->
  dfs_order node = node :: flat_map dfs_order (rev (children node)).
Proof.
  destruct node as [| | | | |items|fields]; try discriminate. intros _.
  simpl. rewrite dict_case_lookup. f_equal.
  destruct (Py.lookup fields "children") as [[]|]; try reflexivity.
  now rewrite flat_map_concat_map, map_rev.
Qed.

(** The loop on a stack of well-formed nodes finds the first match of the
    reverse-sibling depth-first order of what the stack holds, taken from
    its top. *)
Lemma find_loop_refines (stack : list json) (cur : json) :
  Forall (fun c => wf c = true) stack ->
  find_loop suite_name test_name stack cur =
  Return (first_match suite_name test_name cur (flat_map dfs_order (rev stack))).
Proof.
  remember (stack_turns stack) as n eqn:Hn. revert stack cur Hn.
  induction n as [n IH] using lt_wf_ind. intros stack cur Hn Hwf.
  destruct stack as [|node rest _] using rev_ind.
  - now rewrite find_loop_empty.
  - apply Forall_app in Hwf as [Hrest Hnode].
    apply Forall_inv in Hnode.
    rewrite find_loop_top. pose proof (visit_wf node cur Hnode) as Hv.
    rewrite rev_app_distr. simpl rev. simpl flat_map.
    rewrite (dfs_order_node node Hnode). simpl.
    rewrite Hv. cbv zeta.
    destruct (matches _ _ _ node) eqn:Hm; [reflexivity|].
    cbv zeta in Hv. rewrite Hm in Hv.
    rewrite (IH (stack_turns (rest ++ children node))).
    + now rewrite rev_app_distr, flat_map_app.
    + subst n. apply visit_next_turns in Hv.
      rewrite !stack_turns_app.
      replace (stack_turns [node]) with (turns node)
        by (unfold stack_turns; simpl; lia).
      lia.
    + reflexivity.
    + apply Forall_app. split; [assumption | now apply wf_children].
Qed.

Lemma find_refines (tree : json) :
  wf tree = true ->
  find_test_in_data tree suite_name test_name =
  Return (first_match suite_name test_name PyNone (dfs_order tree)).
Proof.
  intros H. unfold find_test_in_data.
  rewrite find_loop_refines by (constructor; [assumption | constructor]).
  simpl. now rewrite app_nil_r.
Qed.

Lemma suite_context_snoc (visited : list json) (node : json) :
  suite_context (visited ++ [node]) =
  if suite_like node then name node else suite_context visited.
Proof.
  unfold suite_context. rewrite rev_app_distr. simpl.
  destruct (suite_like node); reflexivity.
Qed.

(** The carried context and the context read off the visits agree. *)
Lemma first_match_qualifying (visited todo : list json) :
  first_match suite_name test_name (suite_context visited) todo =
  hd_error (qualifying_nodes suite_name test_name visited todo).
Proof.
  revert visited. induction todo as [|node rest IH]; intros visited; simpl.
  - reflexivity.
  - unfold qualifies. rewrite suite_context_snoc.
    destruct (matches _ _ _ node); [reflexivity|].
    simpl. rewrite <- IH, suite_context_snoc. reflexivity.
Qed.

Lemma find_first_qualifying (tree : json) :
  wf tree = true ->
  find_test_in_data tree suite_name test_name =
  Return (hd_error (qualifying_nodes suite_name test_name [] (dfs_order tree))).
Proof.
  intros H. rewrite find_refines by assumption.
  now rewrite <- first_match_qualifying.
Qed.

Lemma qualifying_nodes_match (visited todo : list json) (node : json) :
  In node (qualifying_nodes suite_name test_name visited todo) ->
  Py.eq_str (name node) test_name = true /\ has_uid node = true.
Proof.
  revert visited. induction todo as [|x rest IH]; intros visited; simpl; [tauto|].
  rewrite in_app_iff. intros [H|H]; [|eauto].
  destruct (qualifies _ _ visited x) eqn:Hq; [|destruct H].
  destruct H as [<-|[]]. unfold qualifies, matches in Hq.
  apply andb_true_iff in Hq as [Hq ?]. apply andb_true_iff in Hq as [_ ?]. auto.
Qed.

End SuiteLocatorFacts.

(** ** The attachment search against the specification's order *)

Lemma find_app {A} (f : A -> bool) (l1 l2 : list A) :
  find f (l1 ++ l2) =
  match find f l1 with Some x => Some x | None => find f l2 end.
Proof.
  induction l1 as [|x l1 IH]; simpl; [reflexivity|].
  destruct (f x); auto.
Qed.

Lemma concat_map_cons {A B} (f : A -> list B) (x : A) (l : list A) :
  concat (map f (x :: l)) = f x ++ concat (map f l).
Proof. reflexivity. Qed.

Section AttachmentLocatorFacts.

Variable name : string.

Import ExecutionRecord.

Lemma named_truthy (att : json) : named name att = true -> Py.truthy att = true.
Proof.
  destruct att as [| | | | | |fields]; try discriminate.
  destruct fields; [discriminate | reflexivity].
Qed.

Lemma scan_attachments_wf (items : list json) :
  forallb Py.is_dict items = true ->
  scan_attachments name (JArr items) = Return (find (named name) items).
Proof.
  unfold scan_attachments. simpl.
  induction items as [|att rest IH]; simpl; [reflexivity|].
  intros H. apply andb_true_iff in H as [Hd Hrest].
  destruct att as [| | | | | |fields]; try discriminate. simpl. unfold Py.get.
  destruct (Py.eq_str (Py.get_or fields "name" PyNone) name); auto.
Qed.

(** What well-formedness says of one stage or step. *)
Lemma wf_stage_inv (stage : json) :
  wf_stage stage = true ->
  exists fields own nested,
    stage = JObj fields
    /\ Py.get_or fields "attachments" Py.empty_tuple = JArr own
    /\ forallb Py.is_dict own = true
    /\ own_attachments stage = own
    /\ (Py.lookup fields "steps" = Some (JArr nested)
        \/ Py.lookup fields "steps" = None /\ nested = [])
    /\ forallb wf_stage nested = true
    /\ stage_attachments stage = own ++ concat (map stage_attachments nested).
Proof.
  destruct stage as [| | | | | |fields]; try discriminate. intros H.
  simpl in H. rewrite !dict_case_lookup in H.
  apply andb_true_iff in H as [Ha Hs]. exists fields.
  assert (Hall : stage_attachments (JObj fields) =
                 own_attachments (JObj fields)
                 ++ match Py.lookup fields "steps" with
                    | Some (JArr items) => concat (map stage_attachments items)
                    | _ => []
                    end).
  { simpl. rewrite dict_case_lookup.
    destruct (Py.lookup fields "steps") as [[]|]; reflexivity. }
  rewrite Hall. unfold own_attachments, Py.empty_tuple. rewrite get_or_lookup.
  destruct (Py.lookup fields "attachments") as [[| | | | |own|]|];
    try discriminate;
    destruct (Py.lookup fields "steps") as [[| | | | |nested|]|];
    try discriminate.
  - exists own, nested. repeat split; auto.
  - exists own, []. repeat split; auto.
  - exists [], nested. repeat split; auto.
  - exists [], []. repeat split; auto.
Qed.

Lemma own_attachment_wf (stage : json) :
  wf_stage stage = true ->
  own_attachment name stage = Return (find (named name) (own_attachments stage)).
Proof.
  intros H. destruct (wf_stage_inv stage H)
    as (fields & own & nested & -> & Hget & Hown & Heq & _).
  unfold own_attachment. simpl Py.dot_get_or. rewrite Hget. simpl bind.
  rewrite scan_attachments_wf by assumption. now rewrite Heq.
Qed.

Lemma search_steps_cons (frames : nat) (step : json) (rest : list json) :
  search_steps name (S frames) (JArr (step :: rest)) =
  (found <- own_attachment name step ;;
   match found with
   | Some att => Return (Some att)
   | None =>
       match step with
       | JObj fields =>
           Py.dict_case "steps"
             (fun sub =>
                if Py.truthy sub
                then result <- search_steps name frames sub ;;
                     if Py.truthy_opt result then Return result
                     else search_steps name (S frames) (JArr rest)
                else search_steps name (S frames) (JArr rest))
             (search_steps name (S frames) (JArr rest)) fields
       | _ => Raise AttributeError
       end
   end).
Proof. reflexivity. Qed.

Lemma found_truthy (l : list json) :
  Py.truthy_opt (find (named name) l) =
  match find (named name) l with Some _ => true | None => false end.
Proof.
  destruct (find (named name) l) as [att|] eqn:E; [|reflexivity].
  apply find_some in E as [_ E]. simpl. now apply named_truthy.
Qed.

Lemma nesting_steps (fields : list (string * json)) (s : json) (nested : list json) :
  Py.lookup fields "steps" = Some (JArr (s :: nested)) ->
  nesting (JObj fields) = S (list_max (map nesting (s :: nested))).
Proof.
  intros H. cbn [nesting]. rewrite dict_case_lookup, H. reflexivity.
Qed.

(** While the recursion budget covers the nesting of the steps, the
    search of a list of steps is the search of their attachments in
    order. *)
Lemma search_steps_refines (frames : nat) (items : list json) :
  list_max (map nesting items) < frames ->
  forallb wf_stage items = true ->
  search_steps name frames (JArr items) =
  Return (find (named name) (concat (map stage_attachments items))).
Proof.
  revert items. induction frames as [|frames IHn]; intros items Hdepth Hwf; [lia|].
  induction items as [|step rest IH]; [reflexivity|].
  simpl in Hwf. apply andb_true_iff in Hwf as [Hstep Hrest].
  cbn [map list_max fold_right] in Hdepth.
  assert (Hr : search_steps name (S frames) (JArr rest) =
               Return (find (named name) (concat (map stage_attachments rest)))).
  { apply IH; [unfold list_max; lia | assumption]. }
  rewrite search_steps_cons, own_attachment_wf by assumption.
  destruct (wf_stage_inv step Hstep)
    as (fields & own & nested & -> & _ & _ & Hown & Hsteps & Hnested & Hall).
  rewrite concat_map_cons, Hall, Hown, <- app_assoc, find_app.
  cbn [bind]. destruct (find (named name) own) as [att|]; [reflexivity|].
  rewrite dict_case_lookup, find_app.
  destruct Hsteps as [Hl|[Hl ->]]; rewrite Hl; [|exact Hr].
  destruct nested as [|s nested']; [exact Hr|].
  cbn [Py.truthy].
  rewrite IHn; [| rewrite (nesting_steps _ _ _ Hl) in Hdepth; lia | assumption].
  cbn [bind]. rewrite found_truthy, Hr.
  remember (concat (map stage_attachments (s :: nested'))) as inner.
  destruct (find (named name) inner); reflexivity.
Qed.

Lemma search_stages_cons (frames : nat) (stage : json) (rest : list json) :
  search_stages name frames (JArr (stage :: rest)) =
  (found <- own_attachment name stage ;;
   match found with
   | Some att => Return (Some att)
   | None =>
       sub <- Py.dot_get stage "steps" ;;
       if Py.truthy sub
       then result <- search_steps name frames sub ;;
            if Py.truthy_opt result then Return result
            else search_stages name frames (JArr rest)
       else search_stages name frames (JArr rest)
   end).
Proof. reflexivity. Qed.

Lemma search_stages_refines (frames : nat) (stages : json) :
  stages_nesting stages <= frames ->
  wf_stages stages = true ->
  search_stages name frames stages =
  Return (find (named name) (stages_attachments stages)).
Proof.
  destruct stages as [| | | | |items|]; try discriminate.
  unfold wf_stages, stages_attachments, stages_nesting.
  induction items as [|stage rest IH]; [reflexivity|].
  intros Hdepth Hwf. simpl in Hwf. apply andb_true_iff in Hwf as [Hstage Hrest].
  cbn [map list_max fold_right] in Hdepth.
  assert (Hr : search_stages name frames (JArr rest) =
               Return (find (named name) (concat (map stage_attachments rest))))
    by (apply IH; [unfold list_max; lia | assumption]).
  rewrite search_stages_cons, own_attachment_wf by assumption.
  destruct (wf_stage_inv stage Hstage)
    as (fields & own & nested & -> & _ & _ & Hown & Hsteps & Hnested & Hall).
  rewrite concat_map_cons, Hall, Hown, <- app_assoc, find_app.
  cbn [bind]. destruct (find (named name) own) as [att|]; [reflexivity|].
  rewrite find_app. unfold Py.dot_get. cbn [Py.dot_get_or bind].
  rewrite get_or_lookup.
  destruct Hsteps as [Hl|[Hl ->]]; rewrite Hl; [|exact Hr].
  destruct nested as [|s nested']; [exact Hr|].
  cbn [Py.truthy].
  rewrite search_steps_refines;
    [| rewrite (nesting_steps _ _ _ Hl) in Hdepth; lia | assumption].
  cbn [bind]. rewrite found_truthy, Hr.
  remember (concat (map stage_attachments (s :: nested'))) as inner.
  destruct (find (named name) inner); reflexivity.
Qed.

Lemma wf_record_inv (record : json) :
  wf record = true ->
  exists fields,
    record = JObj fields
    /\ wf_stages (Py.get_or fields "beforeStages" Py.empty_tuple) = true
    /\ wf_stages (Py.get_or fields "afterStages" Py.empty_tuple) = true.
Proof.
  destruct record as [| | | | | |fields]; try discriminate. unfold wf.
  rewrite !dict_case_lookup. intros H.
  apply andb_true_iff in H as [Hb Ha]. exists fields. rewrite !get_or_lookup.
  destruct (Py.lookup fields "beforeStages"), (Py.lookup fields "afterStages"); auto.
Qed.

(** While the recursion budget covers the nesting of the record, the
    function finds the first attachment of that name in search order. *)
Lemma get_attachment_refines (frames : nat) (record : json) :
  record_nesting record <= frames ->
  wf record = true ->
  get_attachment_by_name frames record name =
  Return (find (named name) (search_order record)).
Proof.
  intros Hdepth H. destruct (wf_record_inv record H) as (fields & -> & Hb & Ha).
  unfold record_nesting in Hdepth.
  unfold get_attachment_by_name, search_order, before_attachments, after_attachments.
  cbn [Py.dot_get_or bind]. unfold Py.empty_tuple in *.
  rewrite search_stages_refines by (assumption || lia). cbn [bind].
  rewrite find_app.
  destruct (find _ _); [reflexivity|].
  rewrite search_stages_refines by (assumption || lia). reflexivity.
Qed.

End AttachmentLocatorFacts.

(** ** What the suite locator returns, on any input *)

Lemma visit_found (suite_name test_name : string) (node cur n : json) :
  visit suite_name test_name node cur = Return (Found n) ->
  n = node /\ exists fields, node = JObj fields /\ Py.has_key fields "uid" = true.
Proof.
  unfold visit. destruct node as [| | | | | |fields]; try discriminate.
  destruct (Py.or_else _ _) as [b|e]; cbn [bind]; [|discriminate].
  destruct (Py.eq_str _ suite_name && _ && Py.has_key fields "uid") eqn:Hm.
  - intros H. inversion H. split; [reflexivity|]. exists fields. split; [reflexivity|].
    now apply andb_true_iff in Hm as [_ ?].
  - destruct (Py.has_key fields "children"); [|discriminate].
    destruct (Py.iter _); discriminate.
Qed.

Lemma find_loop_found (suite_name test_name : string) (stack : list json) (cur node : json) :
  find_loop suite_name test_name stack cur = Return (Some node) ->
  exists fields, node = JObj fields /\ Py.has_key fields "uid" = true.
Proof.
  remember (stack_turns stack) as n eqn:Hn. revert stack cur Hn.
  induction n as [n IH] using lt_wf_ind. intros stack cur Hn.
  destruct stack as [|top rest _] using rev_ind.
  - rewrite find_loop_empty. discriminate.
  - rewrite find_loop_top.
    destruct (visit suite_name test_name top cur) as [[m|cur' pushed]|e] eqn:Hv;
      [| |discriminate].
    + intros H. inversion H; subst m. apply visit_found in Hv as [-> Hv]. exact Hv.
    + apply (IH (stack_turns (rest ++ pushed))); [|reflexivity].
      subst n. apply visit_next_turns in Hv. rewrite !stack_turns_app.
      replace (stack_turns [top]) with (turns top) by (unfold stack_turns; simpl; lia).
      lia.
Qed.

Lemma find_test_in_data_found (suite_name test_name : string) (data node : json) :
  find_test_in_data data suite_name test_name = Return (Some node) ->
  exists fields, node = JObj fields /\ Py.has_key fields "uid" = true.
Proof. apply find_loop_found. Qed.

Lemma has_key_truthy (fields : list (string * json)) (k : string) :
  Py.has_key fields k = true -> Py.truthy (JObj fields) = true.
Proof. destruct fields; [discriminate | reflexivity]. Qed.

(** ** The coordinator, path by path *)

Section CoordinatorFacts.

Variable frames : nat.
Variable ALLURE_SERVER : string.
Variable requests_get : string -> res Response.
Variable repr_value : json -> string.
Variable str_exn : exn -> string.

Local Abbreviation fetch_ok := (fetch_ok requests_get).
Local Abbreviation fetch_fails := (fetch_fails requests_get).
Local Abbreviation fetch_json := (fetch_json requests_get).
Local Abbreviation resolve := (resolve frames ALLURE_SERVER requests_get repr_value).
Local Abbreviation get_test_attachments :=
  (get_test_attachments frames ALLURE_SERVER requests_get repr_value str_exn).
Local Abbreviation suites_url := (suites_url ALLURE_SERVER).
Local Abbreviation test_case_url := (test_case_url ALLURE_SERVER repr_value).

Lemma fetch_json_ok (url : string) (data : json) :
  fetch_ok url data -> fetch_json url = ([HttpGet url], Return data).
Proof.
  intros (r & Hg & Hs & Hj). unfold fetch_json.
  rewrite Hg. simpl. rewrite Hs. simpl. rewrite Hj. reflexivity.
Qed.

Lemma fetch_json_fails (url : string) (e : exn) :
  fetch_fails url e -> fetch_json url = ([HttpGet url], Raise e).
Proof.
  unfold fetch_json.
  intros [Hg|(r & Hg & [Hs|[Hs Hj]])]; rewrite Hg; simpl; try reflexivity.
  - rewrite Hs. reflexivity.
  - rewrite Hs. simpl. rewrite Hj. reflexivity.
Qed.


Let fetching (project_id : string) : event :=
  LogInfo ("Fetching suites from: " ++ suites_url project_id).

Let not_found (suite_name test_name : string) : event :=
  LogError ("Test not found: " ++ suite_name ++ "/" ++ test_name).

Let failed (e : exn) : event :=
  LogError ("Error fetching test attachments: " ++ str_exn e).

Lemma resolve_first_fetch_fails (project_id suite_name test_name : string) (e : exn) :
  fetch_fails (suites_url project_id) e ->
  resolve project_id suite_name test_name =
  ([fetching project_id; HttpGet (suites_url project_id)], Raise e).
Proof.
  intros H. unfold resolve. cbv zeta.
  rewrite (fetch_json_fails _ _ H). reflexivity.
Qed.

Ltac io_step := cbn [io_bind emit lift io_ret app negb Py.truthy_opt].

Lemma resolve_suite_miss (project_id suite_name test_name : string) (data : json) :
  fetch_ok (suites_url project_id) data ->
  find_test_in_data data suite_name test_name = Return None ->
  resolve project_id suite_name test_name =
  ([fetching project_id; HttpGet (suites_url project_id);
    not_found suite_name test_name], Return PyNone).
Proof.
  intros H Hf. unfold resolve. cbv zeta.
  rewrite (fetch_json_ok _ _ H). io_step. rewrite Hf. reflexivity.
Qed.

Lemma resolve_suites_malformed (project_id suite_name test_name : string)
      (data : json) (e : exn) :
  fetch_ok (suites_url project_id) data ->
  find_test_in_data data suite_name test_name = Raise e ->
  resolve project_id suite_name test_name =
  ([fetching project_id; HttpGet (suites_url project_id)], Raise e).
Proof.
  intros H Hf. unfold resolve. cbv zeta.
  rewrite (fetch_json_ok _ _ H). io_step. rewrite Hf. reflexivity.
Qed.

(** From here on the suite locator has returned [node], whose uid is [uid]. *)
Section AfterMatch.

Variables project_id suite_name test_name : string.
Variables data node uid : json.

Hypothesis Hsuites : fetch_ok (suites_url project_id) data.
Hypothesis Hfound : find_test_in_data data suite_name test_name = Return (Some node).
Hypothesis Huid : Py.dot_get node "uid" = Return uid.

Let fetching_details : event :=
  LogInfo ("Fetching test details from: " ++ test_case_url project_id uid).

Ltac to_match :=
  unfold resolve; cbv zeta;
  rewrite (fetch_json_ok _ _ Hsuites); io_step; rewrite Hfound;
  destruct (find_test_in_data_found _ _ _ _ Hfound) as (fields & Hnode & Hk);
  io_step; rewrite Hnode at 1; rewrite (has_key_truthy _ _ Hk);
  io_step; rewrite Huid; io_step.

Lemma resolve_falsy_uid :
  Py.truthy uid = false ->
  resolve project_id suite_name test_name =
  ([fetching project_id; HttpGet (suites_url project_id)], Return PyNone).
Proof. intros Hu. to_match. rewrite Hu. reflexivity. Qed.

Lemma resolve_second_fetch_fails (e : exn) :
  Py.truthy uid = true ->
  fetch_fails (test_case_url project_id uid) e ->
  resolve project_id suite_name test_name =
  ([fetching project_id; HttpGet (suites_url project_id);
    fetching_details; HttpGet (test_case_url project_id uid)], Raise e).
Proof.
  intros Hu H. to_match. rewrite Hu. io_step.
  rewrite (fetch_json_fails _ _ H). reflexivity.
Qed.

Lemma resolve_second_fetch_ok (record : json) :
  Py.truthy uid = true ->
  fetch_ok (test_case_url project_id uid) record ->
  resolve project_id suite_name test_name =
  match attachment_dict <- get_attachment_by_name frames record TRACE_ATTACHMENT ;;
        source_of attachment_dict
  with
  | Return source =>
      ([fetching project_id; HttpGet (suites_url project_id);
        fetching_details; HttpGet (test_case_url project_id uid);
        LogInfo ("Found attachment: " ++ py_str repr_value source)],
       Return source)
  | Raise e =>
      ([fetching project_id; HttpGet (suites_url project_id);
        fetching_details; HttpGet (test_case_url project_id uid)], Raise e)
  end.
Proof.
  intros Hu H. to_match. rewrite Hu. io_step.
  rewrite (fetch_json_ok _ _ H). io_step.
  destruct (get_attachment_by_name frames record TRACE_ATTACHMENT) as [a|e];
    cbn [bind]; io_step; [|reflexivity].
  destruct (source_of a) as [source|e]; reflexivity.
Qed.

End AfterMatch.

Lemma handler_return (project_id suite_name test_name : string)
      (trace : list event) (v : json) :
  resolve project_id suite_name test_name = (trace, Return v) ->
  get_test_attachments project_id suite_name test_name = (trace, Return v).
Proof. unfold get_test_attachments. intros ->. reflexivity. Qed.

Lemma handler_raise (project_id suite_name test_name : string)
      (trace : list event) (e : exn) :
  resolve project_id suite_name test_name = (trace, Raise e) ->
  get_test_attachments project_id suite_name test_name =
  (trace ++ [failed e], Return PyNone).
Proof. unfold get_test_attachments. intros ->. reflexivity. Qed.

Lemma get_test_attachments_returns (project_id suite_name test_name : string) :
  exists trace v,
    get_test_attachments project_id suite_name test_name = (trace, Return v).
Proof.
  destruct (resolve project_id suite_name test_name) as [trace [v|e]] eqn:E.
  - exists trace, v. now apply handler_return.
  - exists (trace ++ [failed e]), PyNone. now apply handler_raise.
Qed.

End CoordinatorFacts.

(** ** The suite locator: claims *)

Section SuiteLocatorClaims.

Import ReportNode.

Lemma eq_str_true (v : json) (s : string) : Py.eq_str v s = true <-> v = JStr s.
Proof.
  destruct v; simpl; try (split; [discriminate | intros H; discriminate]).
  rewrite String.eqb_eq. split; [intros ->; reflexivity | intros H; now inversion H].
Qed.

(** C1, as amended.  If exactly one node qualifies along the traversal
    (reverse-sibling depth-first order, the suite context being the name
    of the suite-like node visited most recently, the node itself
    included), [find_test_in_data] returns that node, which is named
    [test_name] and carries the uid. *)
Theorem unique_qualifying_node_is_returned
        (suite_name test_name : string) (tree node : json) :
  wf tree = true ->
  qualifying_nodes suite_name test_name [] (dfs_order tree) = [node] ->
  find_test_in_data tree suite_name test_name = Return (Some node)
  /\ name node = JStr test_name
  /\ exists fields uid,
       node = JObj fields
       /\ Py.lookup fields "uid" = Some uid
       /\ Py.dot_get node "uid" = Return uid.
Proof.
  intros Hwf Hq. split.
  - rewrite find_first_qualifying by assumption. now rewrite Hq.
  - assert (Hin : In node (qualifying_nodes suite_name test_name [] (dfs_order tree)))
      by (rewrite Hq; now left).
    apply qualifying_nodes_match in Hin as [Hn Hu]. split.
    + now apply eq_str_true.
    + destruct node as [| | | | | |fields]; try discriminate.
      simpl in Hu. rewrite has_key_lookup in Hu.
      destruct (Py.lookup fields "uid") as [uid|] eqn:E; [|discriminate].
      exists fields, uid. split; [reflexivity|]. split; [exact E|].
      unfold Py.dot_get, Py.dot_get_or. now rewrite get_or_lookup, E.
Qed.

(** C9.  On a well-formed tree in which no node matches,
    [find_test_in_data] returns [None]; being a total function, it
    neither runs forever nor raises. *)
Theorem no_matching_node_returns_none (suite_name test_name : string) (tree : json) :
  wf tree = true ->
  qualifying_nodes suite_name test_name [] (dfs_order tree) = [] ->
  find_test_in_data tree suite_name test_name = Return None.
Proof.
  intros Hwf Hq. rewrite find_first_qualifying by assumption. now rewrite Hq.
Qed.

(** C3.  The search returns the first node that qualifies, where a node
    qualifies exactly when the suite context equals [suite_name], its
    name equals [test_name] and it carries a uid; the suite context is
    one value, overwritten with the name of every suite-like node as it
    is visited, the node under test included; and a node is suite-like
    exactly when its name contains "TestSuite" or "Test". *)
Theorem flat_suite_context (suite_name test_name : string) (tree : json) :
  wf tree = true ->
  find_test_in_data tree suite_name test_name =
    Return (hd_error (qualifying_nodes suite_name test_name [] (dfs_order tree)))
  /\ (forall visited node,
        qualifies suite_name test_name visited node = true <->
        suite_context (visited ++ [node]) = JStr suite_name
        /\ name node = JStr test_name
        /\ has_uid node = true)
  /\ (forall visited node,
        suite_context (visited ++ [node]) =
        if suite_like node then name node else suite_context visited)
  /\ (forall node,
        suite_like node = true <->
        exists s, name node = JStr s
                  /\ (occurs_in "TestSuite" s \/ occurs_in "Test" s)).
Proof.
  intros Hwf. repeat split.
  - now apply find_first_qualifying.
  - unfold qualifies, matches in H.
    apply andb_true_iff in H as [H _]. apply andb_true_iff in H as [H _].
    now apply eq_str_true.
  - unfold qualifies, matches in H.
    apply andb_true_iff in H as [H _]. apply andb_true_iff in H as [_ H].
    now apply eq_str_true.
  - unfold qualifies, matches in H. now apply andb_true_iff in H as [_ H].
  - intros (Hc & Hn & Hu). unfold qualifies, matches.
    rewrite Hc, Hn, Hu. simpl. now rewrite String.eqb_refl, String.eqb_refl.
  - apply suite_context_snoc.
  - unfold suite_like. intros H. destruct (name node); try discriminate.
    exists s. split; [reflexivity|].
    apply orb_true_iff in H. now rewrite <- !substring_occurs.
  - unfold suite_like. intros (s & -> & H).
    apply orb_true_iff. now rewrite !substring_occurs.
Qed.

(** C4, as amended.  The search visits a node, then the subtrees of its
    children from the last listed to the first listed, every child
    included, and returns the first match of that order; at a match it
    returns at once, whatever is still on the stack.  What it returns is
    the matching node itself, a dict with a [uid] key, and not the uid. *)
Theorem reverse_sibling_order_first_match (suite_name test_name : string) (tree : json) :
  wf tree = true ->
  find_test_in_data tree suite_name test_name =
    Return (first_match suite_name test_name PyNone (dfs_order tree))
  /\ (forall node,
        wf node = true ->
        dfs_order node = node :: flat_map dfs_order (rev (children node)))
  /\ (forall stack node current_suite,
        wf node = true ->
        matches suite_name test_name
                (if suite_like node then name node else current_suite) node = true ->
        find_loop suite_name test_name (stack ++ [node]) current_suite
        = Return (Some node))
  /\ (forall node,
        find_test_in_data tree suite_name test_name = Return (Some node) ->
        In node (dfs_order tree)
        /\ exists fields uid,
             node = JObj fields /\ Py.dot_get node "uid" = Return uid).
Proof.
  intros Hwf. split; [|split; [|split]].
  - now apply find_refines.
  - apply dfs_order_node.
  - intros stack node cur Hn Hm.
    rewrite find_loop_top, (visit_wf suite_name test_name node cur Hn).
    cbv zeta. now rewrite Hm.
  - intros node H. rewrite find_refines in H by assumption.
    injection H as H. revert H. generalize PyNone.
    induction (dfs_order tree) as [|x order IH]; intros cur H; [discriminate|].
    cbn [first_match] in H. cbv zeta in H.
    destruct (matches suite_name test_name _ x) eqn:Hm.
    + injection H as <-. split; [now left|].
      unfold matches in Hm. apply andb_true_iff in Hm as [_ Hu].
      destruct x as [| | | | |items|fields]; try discriminate.
      exists fields. unfold has_uid in Hu. rewrite has_key_lookup in Hu.
      destruct (Py.lookup fields "uid") as [uid|] eqn:E; [|discriminate].
      exists uid. split; [reflexivity|].
      unfold Py.dot_get, Py.dot_get_or. now rewrite get_or_lookup, E.
    + destruct (IH _ H) as [Hin Hx]. split; [now right | exact Hx].
Qed.

End SuiteLocatorClaims.

Lemma unique_qualifying_node_is_returned_witness :
  find_test_in_data Fixture.scenario_suites "TestSuitePaginationScansList"
                    "test_scans_list_artifact_pagination"
  = Return (Some (JObj [("name", JStr "test_scans_list_artifact_pagination");
                        ("uid", JStr "abc123")])).
Proof.
  apply (unique_qualifying_node_is_returned
           "TestSuitePaginationScansList" "test_scans_list_artifact_pagination"
           Fixture.scenario_suites); reflexivity.
Defined.

(** The pair (TestSuiteA, test_a) is in the tree once, as a child of the
    suite and with a uid, and the search returns [None]: the nested suite
    listed after the test is visited before it and takes over the
    context. *)
Lemma present_once_yet_not_found :
  ReportNode.wf Fixture.suite_with_nested_suite = true
  /\ ReportNode.name Fixture.suite_with_nested_suite = JStr "TestSuiteA"
  /\ In Fixture.test_a (ReportNode.children Fixture.suite_with_nested_suite)
  /\ ReportNode.tests_under "TestSuiteA" "test_a" false Fixture.suite_with_nested_suite
     = [Fixture.test_a]
  /\ filter (fun node => Py.eq_str (ReportNode.name node) "test_a"
                         && ReportNode.has_uid node)
            (ReportNode.dfs_order Fixture.suite_with_nested_suite)
     = [Fixture.test_a]
  /\ find_test_in_data Fixture.suite_with_nested_suite "TestSuiteA" "test_a"
     = Return None.
Proof. repeat split. now left. Qed.

Lemma no_matching_node_returns_none_witness :
  find_test_in_data Fixture.scenario_suites "TestSuitePaginationScansList" "test_unknown"
  = Return None.
Proof.
  apply no_matching_node_returns_none; reflexivity.
Defined.

Lemma flat_suite_context_witness :
  find_test_in_data Fixture.suite_with_nested_suite "TestSuiteB" "test_a"
  = Return (Some Fixture.test_a).
Proof.
  apply (proj1 (flat_suite_context "TestSuiteB" "test_a"
                  Fixture.suite_with_nested_suite eq_refl)).
Defined.

Lemma reverse_sibling_order_first_match_witness :
  find_test_in_data Fixture.two_suites "TestLogin" "test_ok"
  = Return (Some (JObj [("name", JStr "test_ok"); ("uid", JStr "second")])).
Proof.
  apply (proj1 (reverse_sibling_order_first_match "TestLogin" "test_ok"
                  Fixture.two_suites eq_refl)).
Defined.

(** Two tests of the suite match; the one listed last is met first, and
    the search returns that node, the dict, where the uid alone would be
    the string "second". *)
Lemma first_match_is_returned_as_a_node :
  ReportNode.wf Fixture.two_suites = true
  /\ ReportNode.qualifying_nodes "TestLogin" "test_ok" []
       (ReportNode.dfs_order Fixture.two_suites)
     = [JObj [("name", JStr "test_ok"); ("uid", JStr "second")];
        JObj [("name", JStr "test_ok"); ("uid", JStr "first")]]
  /\ find_test_in_data Fixture.two_suites "TestLogin" "test_ok"
     = Return (Some (JObj [("name", JStr "test_ok"); ("uid", JStr "second")]))
  /\ Py.dot_get (JObj [("name", JStr "test_ok"); ("uid", JStr "second")]) "uid"
     = Return (JStr "second")
  /\ find_test_in_data Fixture.two_suites "TestLogin" "test_ok"
     <> Return (Some (JStr "second")).
Proof. repeat split. discriminate. Qed.

(** ** The attachment locator: claims *)

Section AttachmentLocatorClaims.

Import ExecutionRecord.





End AttachmentLocatorClaims.







(** ** The coordinator: claims *)

Section CoordinatorClaims.

Variable frames : nat.
Variable ALLURE_SERVER : string.
Variable requests_get : string -> res Response.
Variable repr_value : json -> string.
Variable str_exn : exn -> string.

Local Abbreviation fetch_ok := (fetch_ok requests_get).
Local Abbreviation fetch_fails := (fetch_fails requests_get).
Local Abbreviation get_test_attachments :=
  (get_test_attachments frames ALLURE_SERVER requests_get repr_value str_exn).
Local Abbreviation suites_url := (suites_url ALLURE_SERVER).
Local Abbreviation test_case_url := (test_case_url ALLURE_SERVER repr_value).
Local Abbreviation resolution_fails :=
  (resolution_fails frames ALLURE_SERVER requests_get repr_value).

(** C5.  [get_test_attachments] always returns a value, never an
    exception.  When a fetch fails or a body is malformed it logs the
    error and returns [None], which is also what it returns when the
    suite locator finds nothing. *)
Theorem failures_collapse_to_absent (project_id suite_name test_name : string) :
  (exists trace v,
      get_test_attachments project_id suite_name test_name = (trace, Return v))
  /\ (forall e,
        resolution_fails project_id suite_name test_name e ->
        exists trace,
          get_test_attachments project_id suite_name test_name =
          (trace ++ [LogError ("Error fetching test attachments: " ++ str_exn e)],
           Return PyNone))
  /\ (forall data,
        fetch_ok (suites_url project_id) data ->
        find_test_in_data data suite_name test_name = Return None ->
        snd (get_test_attachments project_id suite_name test_name) = Return PyNone).
Proof.
  split; [apply get_test_attachments_returns|]. split.
  - intros e [H | data H Hf | data node uid H Hf Hu Ht H2
              | data node uid record H Hf Hu Ht H2 Ha];
      eexists; apply handler_raise.
    + now apply resolve_first_fetch_fails.
    + eapply resolve_suites_malformed; eassumption.
    + eapply resolve_second_fetch_fails; eassumption.
    + erewrite resolve_second_fetch_ok by eassumption. rewrite Ha. reflexivity.
  - intros data H Hf.
    erewrite handler_return by (eapply resolve_suite_miss; eassumption).
    reflexivity.
Qed.

(** C6.  When the suite locator returns [None], the coordinator returns
    [None] having issued one request only, that for the summary tree. *)
Theorem suite_miss_skips_second_fetch (project_id suite_name test_name : string)
        (data : json) :
  fetch_ok (suites_url project_id) data ->
  find_test_in_data data suite_name test_name = Return None ->
  get_test_attachments project_id suite_name test_name =
    ([LogInfo ("Fetching suites from: " ++ suites_url project_id);
      HttpGet (suites_url project_id);
      LogError ("Test not found: " ++ suite_name ++ "/" ++ test_name)],
     Return PyNone)
  /\ (forall url,
        In (HttpGet url) (fst (get_test_attachments project_id suite_name test_name)) ->
        url = suites_url project_id).
Proof.
  intros H Hf.
  assert (E : get_test_attachments project_id suite_name test_name =
              ([LogInfo ("Fetching suites from: " ++ suites_url project_id);
                HttpGet (suites_url project_id);
                LogError ("Test not found: " ++ suite_name ++ "/" ++ test_name)],
               Return PyNone)).
  { apply handler_return. eapply resolve_suite_miss; eassumption. }
  split; [exact E|]. rewrite E. simpl.
  intros url [Hu|[Hu|[Hu|[]]]]; now inversion Hu.
Qed.

(** C7.  With the scenario's summary tree served for project P1 and a
    record served for uid abc123, the coordinator returns the [source] of
    what [get_attachment_by_name] finds in that record under the fixed
    name "Test Tracing"; for the scenario's record that is
    "trace-file-xyz.zip". *)
Theorem end_to_end_scenario (record : json) :
  fetch_ok (suites_url "P1") Fixture.scenario_suites ->
  fetch_ok (test_case_url "P1" (JStr "abc123")) record ->
  snd (get_test_attachments "P1" "TestSuitePaginationScansList"
                            "test_scans_list_artifact_pagination")
    = match attachment <- get_attachment_by_name frames record "Test Tracing" ;;
            source_of attachment
      with
      | Return source => Return source
      | Raise _ => Return PyNone
      end
  /\ (record = Fixture.scenario_record ->
      snd (get_test_attachments "P1" "TestSuitePaginationScansList"
                                "test_scans_list_artifact_pagination")
      = Return (JStr "trace-file-xyz.zip")).
Proof.
  intros H1 H2.
  assert (E : snd (get_test_attachments "P1" "TestSuitePaginationScansList"
                                        "test_scans_list_artifact_pagination")
              = match attachment <- get_attachment_by_name frames record "Test Tracing" ;;
                      source_of attachment
                with
                | Return source => Return source
                | Raise _ => Return PyNone
                end).
  { pose proof (resolve_second_fetch_ok frames ALLURE_SERVER requests_get repr_value
                  "P1" "TestSuitePaginationScansList"
                  "test_scans_list_artifact_pagination"
                  Fixture.scenario_suites
                  (JObj [("name", JStr "test_scans_list_artifact_pagination");
                         ("uid", JStr "abc123")])
                  (JStr "abc123") H1 eq_refl eq_refl record eq_refl H2) as Hr.
    unfold TRACE_ATTACHMENT in Hr.
    destruct (attachment <- get_attachment_by_name frames record "Test Tracing" ;;
              source_of attachment) as [source|e].
    - now rewrite (handler_return _ _ _ _ _ _ _ _ _ _ Hr).
    - now rewrite (handler_raise _ _ _ _ _ _ _ _ _ _ Hr). }
  split; [exact E|]. intros ->. rewrite E. reflexivity.
Qed.

(** C10.  A node the suite locator returns has a [uid] key; when the
    value under it is falsy, the coordinator returns [None] after the one
    request for the summary tree, without asking for an execution
    record and without logging more. *)
Theorem falsy_uid_resolves_absent (project_id suite_name test_name : string)
        (data node uid : json) :
  fetch_ok (suites_url project_id) data ->
  find_test_in_data data suite_name test_name = Return (Some node) ->
  Py.dot_get node "uid" = Return uid ->
  Py.truthy uid = false ->
  ReportNode.has_uid node = true
  /\ get_test_attachments project_id suite_name test_name =
     ([LogInfo ("Fetching suites from: " ++ suites_url project_id);
       HttpGet (suites_url project_id)],
      Return PyNone).
Proof.
  intros H Hf Hu Ht. split.
  - destruct (find_test_in_data_found _ _ _ _ Hf) as (fields & -> & Hk). exact Hk.
  - apply handler_return. eapply resolve_falsy_uid; eassumption.
Qed.

End CoordinatorClaims.

Lemma service_suites_ok (suites record : json) :
  fetch_ok (Fixture.service suites record) (suites_url Fixture.server "P1") suites.
Proof.
  exists {| raise_for_status := Return tt; json_body := Return suites |}.
  repeat split.
Qed.

Lemma service_record_ok (suites record : json) :
  fetch_ok (Fixture.service suites record)
           (test_case_url Fixture.server Fixture.no_repr "P1" (JStr "abc123")) record.
Proof.
  exists {| raise_for_status := Return tt; json_body := Return record |}.
  repeat split.
Qed.

Lemma failures_collapse_to_absent_witness :
  exists trace,
    get_test_attachments Fixture.frames Fixture.server Fixture.unreachable Fixture.no_repr
                         Fixture.exn_text "P1" "TestSuiteA" "test_a"
    = (trace ++ [LogError "Error fetching test attachments: ConnectionError"],
       Return PyNone).
Proof.
  apply (proj1 (proj2 (failures_collapse_to_absent
                         Fixture.frames Fixture.server Fixture.unreachable Fixture.no_repr
                         Fixture.exn_text "P1" "TestSuiteA" "test_a"))
           (Upstream "ConnectionError")).
  apply suites_fetch_fails. left. reflexivity.
Defined.

Lemma suite_miss_skips_second_fetch_witness :
  get_test_attachments Fixture.frames Fixture.server
    (Fixture.service Fixture.scenario_suites Fixture.scenario_record)
    Fixture.no_repr Fixture.exn_text
    "P1" "TestSuitePaginationScansList" "test_unknown"
  = ([LogInfo "Fetching suites from: http://allure:5050/allure-docker-service/projects/P1/reports/latest/data/suites.json";
      HttpGet "http://allure:5050/allure-docker-service/projects/P1/reports/latest/data/suites.json";
      LogError "Test not found: TestSuitePaginationScansList/test_unknown"],
     Return PyNone).
Proof.
  apply (proj1 (suite_miss_skips_second_fetch
                  Fixture.frames Fixture.server
                  (Fixture.service Fixture.scenario_suites Fixture.scenario_record)
                  Fixture.no_repr Fixture.exn_text
                  "P1" "TestSuitePaginationScansList" "test_unknown"
                  Fixture.scenario_suites
                  (service_suites_ok _ _) eq_refl)).
Defined.

Lemma end_to_end_scenario_witness :
  snd (get_test_attachments Fixture.frames Fixture.server
         (Fixture.service Fixture.scenario_suites Fixture.scenario_record)
         Fixture.no_repr Fixture.exn_text
         "P1" "TestSuitePaginationScansList" "test_scans_list_artifact_pagination")
  = Return (JStr "trace-file-xyz.zip").
Proof.
  apply (proj2 (end_to_end_scenario
                  Fixture.frames Fixture.server
                  (Fixture.service Fixture.scenario_suites Fixture.scenario_record)
                  Fixture.no_repr Fixture.exn_text Fixture.scenario_record
                  (service_suites_ok _ _) (service_record_ok _ _))).
  reflexivity.
Defined.

Lemma falsy_uid_resolves_absent_witness :
  get_test_attachments Fixture.frames Fixture.server
    (Fixture.service Fixture.empty_uid_suites Fixture.scenario_record)
    Fixture.no_repr Fixture.exn_text "P1" "TestSuiteA" "test_a"
  = ([LogInfo "Fetching suites from: http://allure:5050/allure-docker-service/projects/P1/reports/latest/data/suites.json";
      HttpGet "http://allure:5050/allure-docker-service/projects/P1/reports/latest/data/suites.json"],
     Return PyNone).
Proof.
  apply (proj2 (falsy_uid_resolves_absent
                  Fixture.frames Fixture.server
                  (Fixture.service Fixture.empty_uid_suites Fixture.scenario_record)
                  Fixture.no_repr Fixture.exn_text "P1" "TestSuiteA" "test_a"
                  Fixture.empty_uid_suites
                  (JObj [("name", JStr "test_a"); ("uid", JStr "")]) (JStr "")
                  (service_suites_ok _ _) eq_refl eq_refl eq_refl)).
Defined.

(** ** More on the suite locator, on any input *)

Lemma visit_found_name (suite_name test_name : string) (node cur n : json) :
  visit suite_name test_name node cur = Return (Found n) ->
  n = node
  /\ ReportNode.name n = JStr test_name
  /\ ReportNode.has_uid n = true.
Proof.
  unfold visit. destruct node as [| | | | | |fields]; try discriminate.
  destruct (Py.or_else _ _) as [b|e]; cbn [bind]; [|discriminate].
  destruct (Py.eq_str _ suite_name && _ && Py.has_key fields "uid") eqn:Hm.
  - intros H. inversion H; subst n. split; [reflexivity|].
    apply andb_true_iff in Hm as [Hm Hu]. apply andb_true_iff in Hm as [_ Hn].
    split; [now apply eq_str_true | exact Hu].
  - destruct (Py.has_key fields "children"); [|discriminate].
    destruct (Py.iter _); discriminate.
Qed.

Lemma find_loop_sound (suite_name test_name : string) (stack : list json) (cur node : json) :
  find_loop suite_name test_name stack cur = Return (Some node) ->
  ReportNode.name node = JStr test_name /\ ReportNode.has_uid node = true.
Proof.
  remember (stack_turns stack) as n eqn:Hn. revert stack cur Hn.
  induction n as [n IH] using lt_wf_ind. intros stack cur Hn.
  destruct stack as [|top rest _] using rev_ind.
  - rewrite find_loop_empty. discriminate.
  - rewrite find_loop_top.
    destruct (visit suite_name test_name top cur) as [[m|cur' pushed]|e] eqn:Hv;
      [| |discriminate].
    + intros H. inversion H; subst m. now apply visit_found_name in Hv as [_ Hv].
    + apply (IH (stack_turns (rest ++ pushed))); [|reflexivity].
      subst n. apply visit_next_turns in Hv. rewrite !stack_turns_app.
      replace (stack_turns [top]) with (turns top) by (unfold stack_turns; simpl; lia).
      lia.
Qed.

(** X1.  Whatever JSON value it is given, a node [find_test_in_data]
    returns is a dict named exactly [test_name] that has a [uid] key. *)
Theorem returned_node_is_the_named_test
        (json_data : json) (suite_name test_name : string) (node : json) :
  find_test_in_data json_data suite_name test_name = Return (Some node) ->
  Py.is_dict node = true
  /\ Py.dot_get_or node "name" (JStr "") = Return (JStr test_name)
  /\ ReportNode.has_uid node = true.
Proof.
  intros H. apply find_loop_sound in H as [Hn Hu].
  destruct node as [| | | | | |fields]; try discriminate.
  repeat split; [|exact Hu]. simpl in *. now rewrite Hn.
Qed.

Lemma returned_node_is_the_named_test_witness :
  Py.is_dict Fixture.test_a = true
  /\ Py.dot_get_or Fixture.test_a "name" (JStr "") = Return (JStr "test_a")
  /\ ReportNode.has_uid Fixture.test_a = true.
Proof.
  apply (returned_node_is_the_named_test
           Fixture.suite_with_nested_suite "TestSuiteB" "test_a").
  reflexivity.
Defined.

Lemma testsuite_contains_test (s : string) :
  Py.substring "TestSuite" s = true -> Py.substring "Test" s = true.
Proof.
  rewrite !substring_occurs. intros (before & after & ->).
  exists before, ("Suite" ++ after)%string. reflexivity.
Qed.

(** The suite context is [None] or a value that passed the suite test. *)
Definition passed_suite_test (current_suite : json) : Prop :=
  forall s, current_suite = JStr s -> Py.substring "Test" s = true.

Lemma visit_keeps_suite_test (suite_name test_name : string)
      (node cur cur' : json) (pushed : list json) :
  passed_suite_test cur ->
  visit suite_name test_name node cur = Return (Next cur' pushed) ->
  passed_suite_test cur'.
Proof.
  intros Hc. unfold visit. destruct node as [| | | | | |fields];
    try (intros H; inversion H; subst; exact Hc).
  destruct (Py.get_or fields "name" (JStr "")) as [| | | |nm|items|dict] eqn:En;
    cbn [Py.contains Py.or_else bind]; try discriminate.
  - destruct (Py.substring "TestSuite" nm) eqn:E1;
      [|destruct (Py.substring "Test" nm) eqn:E2]; cbn [bind].
    all: destruct (_ && _ && _); [discriminate|].
    all: destruct (Py.has_key fields "children");
      [destruct (Py.iter _); cbn [bind]|]; intros H; inversion H; subst;
      try exact Hc.
    all: intros s Hs; inversion Hs; subst;
      try (now apply testsuite_contains_test); assumption.
  - destruct (existsb _ items); cbn [bind];
      [|destruct (existsb _ items); cbn [bind]].
    all: destruct (_ && _ && _); [discriminate|].
    all: destruct (Py.has_key fields "children");
      [destruct (Py.iter _); cbn [bind]|]; intros H; inversion H; subst;
      try exact Hc; intros s Hs; discriminate.
  - destruct (Py.has_key dict "TestSuite"); cbn [bind];
      [|destruct (Py.has_key dict "Test"); cbn [bind]].
    all: destruct (_ && _ && _); [discriminate|].
    all: destruct (Py.has_key fields "children");
      [destruct (Py.iter _); cbn [bind]|]; intros H; inversion H; subst;
      try exact Hc; intros s Hs; discriminate.
Qed.

Lemma visit_found_suite_test (suite_name test_name : string) (node cur n : json) :
  passed_suite_test cur ->
  visit suite_name test_name node cur = Return (Found n) ->
  Py.substring "Test" suite_name = true.
Proof.
  intros Hc. unfold visit. destruct node as [| | | | | |fields]; try discriminate.
  destruct (Py.or_else _ _) as [b|e] eqn:Eo; cbn [bind]; [|discriminate].
  match goal with |- context [Py.eq_str ?c suite_name && _ && _] =>
    destruct (Py.eq_str c suite_name) eqn:Es end;
    cbn [andb];
    [| destruct (Py.has_key fields "children");
       [destruct (Py.iter _)|]; discriminate ].
  intros _. apply eq_str_true in Es.
  destruct b.
  - rewrite Es in Eo. cbn [Py.contains Py.or_else bind] in Eo.
    destruct (Py.substring "TestSuite" suite_name) eqn:E1.
    + now apply testsuite_contains_test.
    + cbn [bind] in Eo. congruence.
  - now apply Hc.
Qed.

Lemma find_loop_needs_suite_test (suite_name test_name : string)
      (stack : list json) (cur node : json) :
  passed_suite_test cur ->
  find_loop suite_name test_name stack cur = Return (Some node) ->
  Py.substring "Test" suite_name = true.
Proof.
  remember (stack_turns stack) as n eqn:Hn. revert stack cur Hn.
  induction n as [n IH] using lt_wf_ind. intros stack cur Hn Hc.
  destruct stack as [|top rest _] using rev_ind.
  - rewrite find_loop_empty. discriminate.
  - rewrite find_loop_top.
    destruct (visit suite_name test_name top cur) as [[m|cur' pushed]|e] eqn:Hv;
      [| |discriminate].
    + intros _. eapply visit_found_suite_test; eassumption.
    + apply (IH (stack_turns (rest ++ pushed))); [|reflexivity|].
      * subst n. apply visit_next_turns in Hv. rewrite !stack_turns_app.
        replace (stack_turns [top]) with (turns top)
          by (unfold stack_turns; simpl; lia).
        lia.
      * eapply visit_keeps_suite_test; eassumption.
Qed.

(** X2.  A suite whose name does not contain "Test" is never found: for
    such a [suite_name], [find_test_in_data] returns no node on any input.
    (The test for "TestSuite" adds nothing to the test for "Test".) *)
Theorem suite_name_without_Test_is_never_found
        (json_data : json) (suite_name test_name : string) :
  Py.substring "Test" suite_name = false ->
  (forall node,
     find_test_in_data json_data suite_name test_name <> Return (Some node))
  /\ (forall s, Py.substring "TestSuite" s || Py.substring "Test" s
                = Py.substring "Test" s).
Proof.
  intros Hs. split.
  - intros node H. apply find_loop_needs_suite_test in H.
    + congruence.
    + intros s Hn. discriminate.
  - intros s. destruct (Py.substring "TestSuite" s) eqn:E; [|reflexivity].
    now rewrite (testsuite_contains_test s E).
Qed.

Lemma suite_name_without_Test_is_never_found_witness :
  find_test_in_data
    (JObj [("name", JStr "LoginSuite"); ("children", JArr [Fixture.test_a])])
    "LoginSuite" "test_a"
  <> Return (Some Fixture.test_a).
Proof.
  apply (proj1 (suite_name_without_Test_is_never_found
                  (JObj [("name", JStr "LoginSuite"); ("children", JArr [Fixture.test_a])])
                  "LoginSuite" "test_a" eq_refl)).
Defined.

Lemma visit_not_a_dict (suite_name test_name : string) (junk cur : json) :
  Py.is_dict junk = false ->
  visit suite_name test_name junk cur = Return (Next cur []).
Proof. destruct junk; try reflexivity. discriminate. Qed.

(** X3.  A value on the stack that is not a dict changes nothing: wherever
    it stands, the loop ends as it does without it.  So entries of a
    [children] list that are not dicts (numbers, strings, [null], lists)
    are passed over. *)
Theorem non_dict_entries_are_passed_over
        (suite_name test_name : string) (below above : list json)
        (junk current_suite : json) :
  Py.is_dict junk = false ->
  find_loop suite_name test_name (below ++ junk :: above) current_suite
  = find_loop suite_name test_name (below ++ above) current_suite.
Proof.
  intros Hj. remember (stack_turns above) as n eqn:Hn.
  revert above current_suite Hn.
  induction n as [n IH] using lt_wf_ind. intros above cur Hn.
  destruct above as [|top rest _] using rev_ind.
  - rewrite app_nil_r, find_loop_top, visit_not_a_dict by assumption.
    now rewrite app_nil_r.
  - replace (below ++ junk :: rest ++ [top]) with ((below ++ junk :: rest) ++ [top])
      by now rewrite <- app_assoc.
    rewrite app_assoc, !find_loop_top.
    destruct (visit suite_name test_name top cur) as [[m|cur' pushed]|e] eqn:Hv;
      try reflexivity.
    rewrite <- !app_assoc. simpl.
    apply (IH (stack_turns (rest ++ pushed))); [|reflexivity].
    subst n. apply visit_next_turns in Hv. rewrite !stack_turns_app.
    replace (stack_turns [top]) with (turns top) by (unfold stack_turns; simpl; lia).
    lia.
Qed.

Lemma non_dict_entries_are_passed_over_witness :
  find_loop "TestSuiteA" "test_a"
            ([Fixture.suite_with_nested_suite] ++ JInt 7 :: [Fixture.test_a]) PyNone
  = find_loop "TestSuiteA" "test_a"
              ([Fixture.suite_with_nested_suite] ++ [Fixture.test_a]) PyNone.
Proof.
  apply (non_dict_entries_are_passed_over
           "TestSuiteA" "test_a" [Fixture.suite_with_nested_suite] [Fixture.test_a]
           (JInt 7) PyNone).
  reflexivity.
Defined.

(** A test entry of a flat suite: a well-formed node without children
    whose name does not make it suite-like. *)
Definition plain_test (node : json) : bool :=
  ReportNode.wf node
  && match ReportNode.children node with [] => true | _ => false end
  && negb (ReportNode.suite_like node).

Lemma first_match_plain (suite_name test_name : string) (cur : json) (tests : list json) :
  forallb plain_test tests = true ->
  ReportNode.first_match suite_name test_name cur tests =
  find (ReportNode.matches suite_name test_name cur) tests.
Proof.
  induction tests as [|c tests IH]; simpl; [reflexivity|].
  intros H. apply andb_true_iff in H as [Hc Ht].
  unfold plain_test in Hc. apply andb_true_iff in Hc as [_ Hs].
  apply negb_true_iff in Hs. rewrite Hs.
  destruct (ReportNode.matches _ _ cur c); auto.
Qed.

Lemma dfs_order_plain (tests : list json) :
  forallb plain_test tests = true ->
  flat_map ReportNode.dfs_order tests = tests.
Proof.
  induction tests as [|c tests IH]; simpl; [reflexivity|].
  intros H. apply andb_true_iff in H as [Hc Ht].
  change (ReportNode.dfs_order c ++ flat_map ReportNode.dfs_order tests = c :: tests).
  rewrite (IH Ht). unfold plain_test in Hc.
  apply andb_true_iff in Hc as [Hc _]. apply andb_true_iff in Hc as [Hw Hk].
  rewrite (dfs_order_node c Hw).
  destruct (ReportNode.children c); [reflexivity | discriminate].
Qed.

Lemma forallb_rev {A} (f : A -> bool) (l : list A) :
  forallb f (rev l) = forallb f l.
Proof.
  induction l as [|x l IH]; simpl; [reflexivity|].
  rewrite forallb_app, IH. simpl. rewrite andb_true_r. apply andb_comm.
Qed.

(** X4.  The intended case.  For a suite node whose name contains "Test"
    and whose children are all plain test entries, the search for a test
    of that suite returns the child named [test_name] that has a uid and,
    if several do, the one listed last; it returns [None] if there is
    none. *)
Theorem flat_suite_last_listed_test_wins
        (suite_name test_name : string) (fields : list (string * json))
        (tests : list json) :
  Py.lookup fields "name" = Some (JStr suite_name) ->
  Py.lookup fields "children" = Some (JArr tests) ->
  Py.substring "Test" suite_name = true ->
  forallb plain_test tests = true ->
  suite_name <> test_name ->
  find_test_in_data (JObj fields) suite_name test_name =
  Return (find (fun node => Py.eq_str (ReportNode.name node) test_name
                            && ReportNode.has_uid node)
               (rev tests)).
Proof.
  intros Hn Hc Hs Ht Hne.
  assert (Hw : ReportNode.wf (JObj fields) = true).
  { simpl. rewrite !dict_case_lookup, Hn, Hc. simpl.
    apply forallb_forall. intros c Hin.
    rewrite forallb_forall in Ht. specialize (Ht c Hin).
    unfold plain_test in Ht. apply andb_true_iff in Ht as [Ht _].
    now apply andb_true_iff in Ht as [Ht _]. }
  rewrite find_refines by assumption.
  rewrite (dfs_order_node _ Hw).
  assert (Hk : ReportNode.children (JObj fields) = tests)
    by (simpl; now rewrite Hc).
  assert (Hnm : ReportNode.name (JObj fields) = JStr suite_name)
    by (simpl; now rewrite get_or_lookup, Hn).
  rewrite Hk, dfs_order_plain by now rewrite forallb_rev.
  assert (Hsl : ReportNode.suite_like (JObj fields) = true)
    by (unfold ReportNode.suite_like; now rewrite Hnm, Hs, orb_true_r).
  cbn [ReportNode.first_match]. rewrite Hsl, Hnm.
  unfold ReportNode.matches at 1. rewrite Hnm. cbn [Py.eq_str].
  rewrite String.eqb_refl. apply String.eqb_neq in Hne. rewrite Hne. cbn [andb].
  rewrite first_match_plain by now rewrite forallb_rev.
  f_equal. unfold ReportNode.matches. cbn [Py.eq_str].
  rewrite String.eqb_refl. reflexivity.
Qed.

Lemma flat_suite_last_listed_test_wins_witness :
  find_test_in_data
    (JObj [("name", JStr "TestLogin");
           ("children", JArr [JObj [("name", JStr "test_ok"); ("uid", JStr "first")];
                              JObj [("name", JStr "test_other"); ("uid", JStr "x")];
                              JObj [("name", JStr "test_ok"); ("uid", JStr "second")]])])
    "TestLogin" "test_ok"
  = Return (Some (JObj [("name", JStr "test_ok"); ("uid", JStr "second")])).
Proof.
  apply (flat_suite_last_listed_test_wins
           "TestLogin" "test_ok"
           [("name", JStr "TestLogin");
            ("children", JArr [JObj [("name", JStr "test_ok"); ("uid", JStr "first")];
                               JObj [("name", JStr "test_other"); ("uid", JStr "x")];
                               JObj [("name", JStr "test_ok"); ("uid", JStr "second")]])]
           [JObj [("name", JStr "test_ok"); ("uid", JStr "first")];
            JObj [("name", JStr "test_other"); ("uid", JStr "x")];
            JObj [("name", JStr "test_ok"); ("uid", JStr "second")]]);
    try reflexivity.
  discriminate.
Defined.

(** ** More on the attachment locator, on any input *)

Section AttachmentLocatorSound.

Variable name : string.

Import ExecutionRecord.

Lemma scan_attachments_sound (attachments att : json) :
  scan_attachments name attachments = Return (Some att) -> named name att = true.
Proof.
  unfold scan_attachments.
  destruct (Py.iter attachments) as [items|e]; cbn [bind]; [|discriminate].
  induction items as [|a rest IH]; [discriminate|].
  destruct a as [| | | | | |fields]; try discriminate. cbn [Py.dot_get Py.dot_get_or bind].
  destruct (Py.eq_str (Py.get_or fields "name" PyNone) name) eqn:E; [|exact IH].
  intros H. inversion H; subst. exact E.
Qed.

Lemma own_attachment_sound (stage att : json) :
  own_attachment name stage = Return (Some att) -> named name att = true.
Proof.
  unfold own_attachment.
  destruct (Py.dot_get_or stage "attachments" Py.empty_tuple); cbn [bind];
    [apply scan_attachments_sound | discriminate].
Qed.

Lemma search_steps_sound (n frames : nat) (steps att : json) :
  json_size steps <= n ->
  search_steps name frames steps = Return (Some att) -> named name att = true.
Proof.
  revert frames steps. induction n as [|n IHn]; intros frames steps Hsize.
  - destruct steps; simpl in Hsize; lia.
  - destruct steps as [| | | | s|items|fields];
      destruct frames as [|frames]; try discriminate.
    + simpl. destruct (Py.chars s); discriminate.
    + induction items as [|step rest IH]; [discriminate|].
      rewrite search_steps_cons.
      destruct (own_attachment name step) as [[found|]|e] eqn:Eo;
        cbn [bind]; [| |discriminate].
      * intros H. inversion H; subst. now apply own_attachment_sound in Eo.
      * assert (Hrest : search_steps name (S frames) (JArr rest) = Return (Some att) ->
                        named name att = true)
          by (apply IH; simpl in *; lia).
        destruct step as [| | | | | |sfields]; try discriminate.
        rewrite dict_case_lookup.
        destruct (Py.lookup sfields "steps") as [sub|] eqn:El; [|exact Hrest].
        destruct (Py.truthy sub); [|exact Hrest].
        destruct (search_steps name frames sub) as [[r|]|e] eqn:Es; cbn [bind];
          [| exact Hrest | discriminate].
        cbn [Py.truthy_opt]. destruct (Py.truthy r); [|exact Hrest].
        intros H. inversion H; subst.
        apply (IHn frames sub); [|exact Es].
        apply lookup_size in El. simpl in *. lia.
    + simpl. destruct (map _ fields); discriminate.
Qed.

Lemma search_stages_sound (frames : nat) (stages att : json) :
  search_stages name frames stages = Return (Some att) -> named name att = true.
Proof.
  unfold search_stages.
  destruct (Py.iter stages) as [items|e]; cbn [bind]; [|discriminate].
  induction items as [|stage rest IH]; [discriminate|].
  destruct (own_attachment name stage) as [[found|]|e] eqn:Eo;
    cbn [bind]; [| |discriminate].
  - intros H. inversion H; subst. now apply own_attachment_sound in Eo.
  - destruct (Py.dot_get stage "steps") as [sub|e]; cbn [bind]; [|discriminate].
    destruct (Py.truthy sub); [|exact IH].
    destruct (search_steps name frames sub) as [[r|]|e] eqn:Es; cbn [bind];
      [| exact IH | discriminate].
    cbn [Py.truthy_opt]. destruct (Py.truthy r); [|exact IH].
    intros H. inversion H; subst.
    now apply (search_steps_sound _ frames sub att (le_n _)).
Qed.

Lemma get_attachment_sound (frames : nat) (test_result att : json) :
  get_attachment_by_name frames test_result name = Return (Some att) ->
  named name att = true.
Proof.
  unfold get_attachment_by_name.
  destruct (Py.dot_get_or test_result "beforeStages" _) as [before|e];
    cbn [bind]; [|discriminate].
  destruct (search_stages name frames before) as [[found|]|e] eqn:Eb;
    cbn [bind]; [| |discriminate].
  - intros H. inversion H; subst. now apply search_stages_sound in Eb.
  - destruct (Py.dot_get_or test_result "afterStages" _) as [after|e];
      cbn [bind]; [|discriminate].
    apply search_stages_sound.
Qed.

End AttachmentLocatorSound.

Lemma named_dot_get (name : string) (att : json) :
  ExecutionRecord.named name att = true ->
  Py.dot_get att "name" = Return (JStr name).
Proof.
  destruct att as [| | | | | |fields]; try discriminate.
  unfold ExecutionRecord.named. intros H. apply eq_str_true in H.
  unfold Py.dot_get, Py.dot_get_or. unfold Py.get in H. now rewrite H.
Qed.

(** X5.  Whatever JSON value it is given, what [get_attachment_by_name]
    returns is a dict whose [name] is exactly the string asked for; in
    particular it is never an empty dict, so the caller's test
    [if attachment_dict] fails only on [None]. *)
Theorem returned_attachment_has_the_name
        (frames : nat) (test_result : json) (name : string) (att : json) :
  get_attachment_by_name frames test_result name = Return (Some att) ->
  Py.dot_get att "name" = Return (JStr name) /\ Py.truthy att = true.
Proof.
  intros H. apply get_attachment_sound in H.
  split; [now apply named_dot_get | now apply (named_truthy name)].
Qed.

Lemma returned_attachment_has_the_name_witness :
  Py.dot_get Fixture.deep_attachment "name" = Return (JStr "Test Tracing")
  /\ Py.truthy Fixture.deep_attachment = true.
Proof.
  apply (returned_attachment_has_the_name
           Fixture.frames Fixture.nested_record "Test Tracing").
  reflexivity.
Defined.

(** ** Every run of the coordinator *)

(** The URLs requested along a trace, in order. *)
Definition requests_of (trace : list event) : list string :=
  flat_map (fun e => match e with HttpGet url => [url] | _ => [] end) trace.

Section CoordinatorRuns.

Variable frames : nat.
Variable ALLURE_SERVER : string.
Variable requests_get : string -> res Response.
Variable repr_value : json -> string.
Variable str_exn : exn -> string.

Local Abbreviation fetch_ok := (fetch_ok requests_get).
Local Abbreviation fetch_fails := (fetch_fails requests_get).
Local Abbreviation get_test_attachments :=
  (get_test_attachments frames ALLURE_SERVER requests_get repr_value str_exn).
Local Abbreviation suites_url := (suites_url ALLURE_SERVER).
Local Abbreviation test_case_url := (test_case_url ALLURE_SERVER repr_value).

Lemma fetch_ok_or_fails (url : string) :
  (exists data, fetch_ok url data) \/ (exists e, fetch_fails url e).
Proof.
  unfold fetch_ok, fetch_fails.
  destruct (requests_get url) as [r|e] eqn:Eg; [|right; exists e; now left].
  destruct (raise_for_status r) as [[]|e] eqn:Es.
  - destruct (json_body r) as [data|e] eqn:Ej.
    + left. exists data, r. auto.
    + right. exists e. right. exists r. auto.
  - right. exists e. right. exists r. auto.
Qed.

(** The paths a run can take, each with the events it leaves and the
    value it returns. *)
Inductive run (project_id suite_name test_name : string) : list event -> json -> Prop :=
| run_suites_fetch_fails e :
    fetch_fails (suites_url project_id) e ->
    run project_id suite_name test_name
        [LogInfo ("Fetching suites from: " ++ suites_url project_id);
         HttpGet (suites_url project_id);
         LogError ("Error fetching test attachments: " ++ str_exn e)]
        PyNone
| run_suites_malformed data e :
    fetch_ok (suites_url project_id) data ->
    find_test_in_data data suite_name test_name = Raise e ->
    run project_id suite_name test_name
        [LogInfo ("Fetching suites from: " ++ suites_url project_id);
         HttpGet (suites_url project_id);
         LogError ("Error fetching test attachments: " ++ str_exn e)]
        PyNone
| run_suite_miss data :
    fetch_ok (suites_url project_id) data ->
    find_test_in_data data suite_name test_name = Return None ->
    run project_id suite_name test_name
        [LogInfo ("Fetching suites from: " ++ suites_url project_id);
         HttpGet (suites_url project_id);
         LogError ("Test not found: " ++ suite_name ++ "/" ++ test_name)]
        PyNone
| run_falsy_uid data node uid :
    fetch_ok (suites_url project_id) data ->
    find_test_in_data data suite_name test_name = Return (Some node) ->
    Py.dot_get node "uid" = Return uid ->
    Py.truthy uid = false ->
    run project_id suite_name test_name
        [LogInfo ("Fetching suites from: " ++ suites_url project_id);
         HttpGet (suites_url project_id)]
        PyNone
| run_record_fetch_fails data node uid e :
    fetch_ok (suites_url project_id) data ->
    find_test_in_data data suite_name test_name = Return (Some node) ->
    Py.dot_get node "uid" = Return uid ->
    Py.truthy uid = true ->
    fetch_fails (test_case_url project_id uid) e ->
    run project_id suite_name test_name
        [LogInfo ("Fetching suites from: " ++ suites_url project_id);
         HttpGet (suites_url project_id);
         LogInfo ("Fetching test details from: " ++ test_case_url project_id uid);
         HttpGet (test_case_url project_id uid);
         LogError ("Error fetching test attachments: " ++ str_exn e)]
        PyNone
| run_record_malformed data node uid record e :
    fetch_ok (suites_url project_id) data ->
    find_test_in_data data suite_name test_name = Return (Some node) ->
    Py.dot_get node "uid" = Return uid ->
    Py.truthy uid = true ->
    fetch_ok (test_case_url project_id uid) record ->
    get_attachment_by_name frames record "Test Tracing" = Raise e ->
    run project_id suite_name test_name
        [LogInfo ("Fetching suites from: " ++ suites_url project_id);
         HttpGet (suites_url project_id);
         LogInfo ("Fetching test details from: " ++ test_case_url project_id uid);
         HttpGet (test_case_url project_id uid);
         LogError ("Error fetching test attachments: " ++ str_exn e)]
        PyNone
| run_no_attachment data node uid record :
    fetch_ok (suites_url project_id) data ->
    find_test_in_data data suite_name test_name = Return (Some node) ->
    Py.dot_get node "uid" = Return uid ->
    Py.truthy uid = true ->
    fetch_ok (test_case_url project_id uid) record ->
    get_attachment_by_name frames record "Test Tracing" = Return None ->
    run project_id suite_name test_name
        [LogInfo ("Fetching suites from: " ++ suites_url project_id);
         HttpGet (suites_url project_id);
         LogInfo ("Fetching test details from: " ++ test_case_url project_id uid);
         HttpGet (test_case_url project_id uid);
         LogInfo "Found attachment: None"]
        PyNone
| run_attachment data node uid record att source :
    fetch_ok (suites_url project_id) data ->
    find_test_in_data data suite_name test_name = Return (Some node) ->
    Py.dot_get node "uid" = Return uid ->
    Py.truthy uid = true ->
    fetch_ok (test_case_url project_id uid) record ->
    get_attachment_by_name frames record "Test Tracing" = Return (Some att) ->
    Py.dot_get att "source" = Return source ->
    run project_id suite_name test_name
        [LogInfo ("Fetching suites from: " ++ suites_url project_id);
         HttpGet (suites_url project_id);
         LogInfo ("Fetching test details from: " ++ test_case_url project_id uid);
         HttpGet (test_case_url project_id uid);
         LogInfo ("Found attachment: " ++ py_str repr_value source)]
        source.

Lemma every_run (project_id suite_name test_name : string) :
  exists trace v,
    get_test_attachments project_id suite_name test_name = (trace, Return v)
    /\ run project_id suite_name test_name trace v.
Proof.
  destruct (fetch_ok_or_fails (suites_url project_id)) as [[data H1]|[e H1]].
  2:{ do 2 eexists. split.
      - apply handler_raise. eapply resolve_first_fetch_fails; eassumption.
      - eapply run_suites_fetch_fails; eassumption. }
  destruct (find_test_in_data data suite_name test_name) as [[node|]|e] eqn:Hf.
  2:{ do 2 eexists. split.
      - apply handler_return. eapply resolve_suite_miss; eassumption.
      - eapply run_suite_miss; eassumption. }
  2:{ do 2 eexists. split.
      - apply handler_raise. eapply resolve_suites_malformed; eassumption.
      - eapply run_suites_malformed; eassumption. }
  destruct (find_test_in_data_found _ _ _ _ Hf) as (fields & -> & Hk).
  assert (Hu : Py.dot_get (JObj fields) "uid" = Return (Py.get fields "uid"))
    by reflexivity.
  destruct (Py.truthy (Py.get fields "uid")) eqn:Ht.
  2:{ do 2 eexists. split.
      - apply handler_return. eapply resolve_falsy_uid; eassumption.
      - eapply run_falsy_uid; eassumption. }
  destruct (fetch_ok_or_fails (test_case_url project_id (Py.get fields "uid")))
    as [[record H2]|[e H2]].
  2:{ do 2 eexists. split.
      - apply handler_raise. eapply resolve_second_fetch_fails; eassumption.
      - eapply run_record_fetch_fails; eassumption. }
  pose proof (resolve_second_fetch_ok frames ALLURE_SERVER requests_get repr_value
                _ _ _ _ _ _ H1 Hf Hu record Ht H2) as Hr.
  unfold TRACE_ATTACHMENT in Hr.
  destruct (get_attachment_by_name frames record "Test Tracing") as [[att|]|e] eqn:Ha.
  - pose proof (get_attachment_sound _ _ _ _ Ha) as Hn.
    pose proof (named_truthy _ _ Hn) as Hy.
    destruct att as [| | | | | |afields]; try discriminate.
    cbn [bind source_of] in Hr. rewrite Hy in Hr. cbn [Py.dot_get Py.dot_get_or] in Hr.
    do 2 eexists. split; [apply handler_return; exact Hr|].
    eapply run_attachment; try eassumption. reflexivity.
  - cbn [bind source_of] in Hr.
    do 2 eexists. split; [apply handler_return; exact Hr|].
    eapply run_no_attachment; eassumption.
  - cbn [bind] in Hr.
    do 2 eexists. split; [apply handler_raise; exact Hr|].
    eapply run_record_malformed; eassumption.
Qed.

(** X6.  Whatever the service answers, a call makes one or two requests
    and no other: first the summary tree of the project, then at most the
    test case of the uid carried by the node the suite locator returned. *)
Theorem at_most_two_requests (project_id suite_name test_name : string) :
  let requested :=
    requests_of (fst (get_test_attachments project_id suite_name test_name)) in
  requested = [suites_url project_id]
  \/ exists data node uid,
       fetch_ok (suites_url project_id) data
       /\ find_test_in_data data suite_name test_name = Return (Some node)
       /\ Py.dot_get node "uid" = Return uid
       /\ Py.truthy uid = true
       /\ requested = [suites_url project_id; test_case_url project_id uid].
Proof.
  cbv zeta.
  destruct (every_run project_id suite_name test_name) as (trace & v & -> & Hrun).
  cbn [fst].
  destruct Hrun; try (left; reflexivity);
    right; exists data, node, uid; repeat split; assumption.
Qed.

(** X7.  A result other than [None] has one origin only: both fetches
    succeeded, the suite locator returned a node with a truthy uid, and
    the result is the [source] of an attachment named "Test Tracing" that
    the attachment locator returned for the record fetched under that
    uid. *)
Theorem result_comes_from_a_trace_attachment
        (project_id suite_name test_name : string) (v : json) :
  snd (get_test_attachments project_id suite_name test_name) = Return v ->
  v <> PyNone ->
  exists data node uid record att,
    fetch_ok (suites_url project_id) data
    /\ find_test_in_data data suite_name test_name = Return (Some node)
    /\ Py.dot_get node "uid" = Return uid
    /\ Py.truthy uid = true
    /\ fetch_ok (test_case_url project_id uid) record
    /\ get_attachment_by_name frames record "Test Tracing" = Return (Some att)
    /\ Py.dot_get att "name" = Return (JStr "Test Tracing")
    /\ Py.dot_get att "source" = Return v.
Proof.
  destruct (every_run project_id suite_name test_name) as (trace & w & -> & Hrun).
  cbn [snd]. intros H Hv. inversion H; subst w.
  destruct Hrun; try congruence.
  exists data, node, uid, record, att. repeat split; try assumption.
  apply named_dot_get. eapply get_attachment_sound. eassumption.
Qed.

(** X8.  The two searches composed.  When the service serves a
    well-formed summary tree and, under the uid of its first qualifying
    node, a well-formed record whose steps are nested no deeper than the
    recursion limit still allows, the result is the [source] of the first
    attachment named "Test Tracing" in the record's search order, and
    [None] if the record has none. *)
Theorem resolves_to_first_trace_attachment
        (project_id suite_name test_name : string) (tree node uid record : json) :
  fetch_ok (suites_url project_id) tree ->
  ReportNode.wf tree = true ->
  hd_error (ReportNode.qualifying_nodes suite_name test_name []
              (ReportNode.dfs_order tree)) = Some node ->
  Py.dot_get node "uid" = Return uid ->
  Py.truthy uid = true ->
  fetch_ok (test_case_url project_id uid) record ->
  ExecutionRecord.wf record = true ->
  ExecutionRecord.record_nesting record <= frames ->
  snd (get_test_attachments project_id suite_name test_name) =
  Return match find (ExecutionRecord.named "Test Tracing")
                    (ExecutionRecord.search_order record) with
         | Some att => ExecutionRecord.source att
         | None => PyNone
         end.
Proof.
  intros H1 Hw Hq Hu Ht H2 Hr Hdepth.
  pose proof (find_first_qualifying suite_name test_name tree Hw) as Hf.
  rewrite Hq in Hf.
  pose proof (resolve_second_fetch_ok frames ALLURE_SERVER requests_get repr_value
                _ _ _ _ _ _ H1 Hf Hu record Ht H2) as Hres.
  unfold TRACE_ATTACHMENT in Hres.
  rewrite (get_attachment_refines "Test Tracing" frames record Hdepth Hr) in Hres.
  cbn [bind] in Hres.
  destruct (find _ (ExecutionRecord.search_order record)) as [att|] eqn:Ef.
  - apply find_some in Ef as [_ Hn].
    pose proof (named_truthy _ _ Hn) as Hy.
    destruct att as [| | | | | |afields]; try discriminate.
    cbn [source_of] in Hres. rewrite Hy in Hres.
    cbn [Py.dot_get Py.dot_get_or] in Hres.
    now rewrite (handler_return _ _ _ _ _ _ _ _ _ _ Hres).
  - cbn [source_of] in Hres.
    now rewrite (handler_return _ _ _ _ _ _ _ _ _ _ Hres).
Qed.

End CoordinatorRuns.

Lemma result_comes_from_a_trace_attachment_witness :
  exists data node uid record att,
    fetch_ok (Fixture.service Fixture.scenario_suites Fixture.scenario_record)
             (suites_url Fixture.server "P1") data
    /\ find_test_in_data data "TestSuitePaginationScansList"
                         "test_scans_list_artifact_pagination" = Return (Some node)
    /\ Py.dot_get node "uid" = Return uid
    /\ Py.truthy uid = true
    /\ fetch_ok (Fixture.service Fixture.scenario_suites Fixture.scenario_record)
                (test_case_url Fixture.server Fixture.no_repr "P1" uid) record
    /\ get_attachment_by_name Fixture.frames record "Test Tracing" = Return (Some att)
    /\ Py.dot_get att "name" = Return (JStr "Test Tracing")
    /\ Py.dot_get att "source" = Return (JStr "trace-file-xyz.zip").
Proof.
  apply (result_comes_from_a_trace_attachment
           Fixture.frames Fixture.server
           (Fixture.service Fixture.scenario_suites Fixture.scenario_record)
           Fixture.no_repr Fixture.exn_text
           "P1" "TestSuitePaginationScansList" "test_scans_list_artifact_pagination"
           (JStr "trace-file-xyz.zip")).
  - reflexivity.
  - discriminate.
Defined.

Lemma resolves_to_first_trace_attachment_witness :
  snd (get_test_attachments Fixture.frames Fixture.server
         (Fixture.service Fixture.scenario_suites Fixture.nested_record)
         Fixture.no_repr Fixture.exn_text
         "P1" "TestSuitePaginationScansList" "test_scans_list_artifact_pagination")
  = Return (JStr "deep.zip").
Proof.
  apply (resolves_to_first_trace_attachment
           Fixture.frames Fixture.server
           (Fixture.service Fixture.scenario_suites Fixture.nested_record)
           Fixture.no_repr Fixture.exn_text
           "P1" "TestSuitePaginationScansList" "test_scans_list_artifact_pagination"
           Fixture.scenario_suites
           (JObj [("name", JStr "test_scans_list_artifact_pagination");
                  ("uid", JStr "abc123")])
           (JStr "abc123") Fixture.nested_record
           (service_suites_ok _ _) eq_refl eq_refl eq_refl eq_refl
           (service_record_ok _ _) eq_refl).
  apply Nat.leb_le. reflexivity.
Defined.

(** ** The two routes: [get_attachment_url] and [route_to_trace] *)

(** How a route handler ends: with a returned dict (sent as JSON), with a
    redirect, by raising [HTTPException], or with another exception.  A
    redirect is recorded as the client receives it, by its [Location]
    header and its status. *)
Inductive reply : Type :=
| Body (content : json)
| RedirectResponse (location : string) (status_code : Z)
| HTTPException (status_code : Z) (detail : json)
| Unhandled (e : exn).

Section Routes.

Variable frames : nat.
Variable ALLURE_SERVER : string.
Variable requests_get : string -> res Response.
Variable repr_value : json -> string.
Variable str_exn : exn -> string.

(** The setting [TRACE_VIEWER_PATH], as the f-string prints it. *)
Variable TRACE_VIEWER_PATH : string.

(** The [Location] header that the framework's [RedirectResponse] makes
    of its [url] argument.  It is not the argument itself: the framework
    percent-encodes it, so that a space in it is sent as [%20]. *)
Variable location_header : string -> string.

Definition attachment_url (project_id : string) (attachment_filename : json) : string :=
  ALLURE_SERVER ++ "/allure-docker-service/projects/" ++ project_id ++ "/"
    ++ "reports/latest/data/attachments/" ++ py_str repr_value attachment_filename.

(** The [detail] of the 404 that both routes raise. *)
Definition not_found_detail (project_id suite_name test_name : string) : json :=
  JObj [("error", JStr "Test not found or no Playwright trace attachments available");
        ("project_id", JStr project_id);
        ("suite_name", JStr suite_name);
        ("test_name", JStr test_name);
        ("hint", JStr "Check if the test exists and has Playwright trace attachments")].

Definition get_attachment_url (project_id suite_name test_name : string)
  : list event * reply :=
  match get_test_attachments frames ALLURE_SERVER requests_get repr_value str_exn
                             project_id suite_name test_name with
  | (trace, Raise e) => (trace, Unhandled e)
  | (trace, Return attachment_filename) =>
      if negb (Py.truthy attachment_filename)
      then (trace, HTTPException 404 (not_found_detail project_id suite_name test_name))
      else
        let attachment_url := attachment_url project_id attachment_filename in
        (trace,
         Body (JObj [("project_id", JStr project_id);
                     ("suite_name", JStr suite_name);
                     ("test_name", JStr test_name);
                     ("attachment_url", JStr attachment_url)]))
  end.

Definition route_to_trace (project_id suite_name test_name : string)
  : list event * reply :=
  let routing :=
    LogInfo ("Routing request: " ++ project_id ++ "/" ++ suite_name ++ "/" ++ test_name) in
  match get_test_attachments frames ALLURE_SERVER requests_get repr_value str_exn
                             project_id suite_name test_name with
  | (trace, Raise e) => (routing :: trace, Unhandled e)
  | (trace, Return attachment_filename) =>
      if negb (Py.truthy attachment_filename)
      then (routing :: trace,
            HTTPException 404 (not_found_detail project_id suite_name test_name))
      else
        let attachment_url := attachment_url project_id attachment_filename in
        let trace_viewer_url :=
          (TRACE_VIEWER_PATH ++ "?trace=" ++ attachment_url)%string in
        (routing :: trace
           ++ [LogInfo ("Attachment URL: " ++ attachment_url); LogInfo trace_viewer_url],
         RedirectResponse (location_header trace_viewer_url) 302)
  end.

Local Abbreviation fetch_ok := (fetch_ok requests_get).
Local Abbreviation fetch_fails := (fetch_fails requests_get).
Local Abbreviation get_test_attachments :=
  (get_test_attachments frames ALLURE_SERVER requests_get repr_value str_exn).
Local Abbreviation suites_url := (suites_url ALLURE_SERVER).
Local Abbreviation test_case_url := (test_case_url ALLURE_SERVER repr_value).
Local Abbreviation resolution_fails :=
  (resolution_fails frames ALLURE_SERVER requests_get repr_value).



(** X10.  Every failure of a resolution, an unreachable service included,
    reaches the client of either route as the 404 that echoes the three
    inputs, the same as for a test that does not exist. *)
Theorem failures_surface_as_404 (project_id suite_name test_name : string) (e : exn) :
  resolution_fails project_id suite_name test_name e ->
  snd (get_attachment_url project_id suite_name test_name)
    = HTTPException 404 (not_found_detail project_id suite_name test_name)
  /\ snd (route_to_trace project_id suite_name test_name)
     = HTTPException 404 (not_found_detail project_id suite_name test_name).
Proof.
  intros H.
  assert (E : exists trace,
             get_test_attachments project_id suite_name test_name
             = (trace, Return PyNone)).
  { destruct H as [H | data H Hf | data node uid H Hf Hu Ht H2
                  | data node uid record H Hf Hu Ht H2 Ha];
      eexists; apply handler_raise.
    - eapply resolve_first_fetch_fails; eassumption.
    - eapply resolve_suites_malformed; eassumption.
    - eapply resolve_second_fetch_fails; eassumption.
    - erewrite resolve_second_fetch_ok by eassumption. rewrite Ha. reflexivity. }
  destruct E as [trace E].
  unfold get_attachment_url, route_to_trace. cbv zeta. rewrite E. split; reflexivity.
Qed.

(** X11.  An attachment that is found but whose [source] is missing,
    [null] or empty gives the same 404 on both routes: the routes test the
    truth value of the source, not whether an attachment was found. *)
Theorem empty_source_is_not_found
        (project_id suite_name test_name : string)
        (data node uid record att source : json) :
  fetch_ok (suites_url project_id) data ->
  find_test_in_data data suite_name test_name = Return (Some node) ->
  Py.dot_get node "uid" = Return uid ->
  Py.truthy uid = true ->
  fetch_ok (test_case_url project_id uid) record ->
  get_attachment_by_name frames record "Test Tracing" = Return (Some att) ->
  Py.dot_get att "source" = Return source ->
  Py.truthy source = false ->
  snd (get_attachment_url project_id suite_name test_name)
    = HTTPException 404 (not_found_detail project_id suite_name test_name)
  /\ snd (route_to_trace project_id suite_name test_name)
     = HTTPException 404 (not_found_detail project_id suite_name test_name).
Proof.
  intros H1 Hf Hu Ht H2 Ha Hs Hfalsy.
  pose proof (resolve_second_fetch_ok frames ALLURE_SERVER requests_get repr_value
                _ _ _ _ _ _ H1 Hf Hu record Ht H2) as Hr.
  unfold TRACE_ATTACHMENT in Hr. rewrite Ha in Hr. cbn [bind source_of] in Hr.
  pose proof (get_attachment_sound _ _ _ _ Ha) as Hn.
  rewrite (named_truthy _ _ Hn), Hs in Hr.
  apply (handler_return frames ALLURE_SERVER requests_get repr_value str_exn) in Hr.
  unfold get_attachment_url, route_to_trace. cbv zeta. rewrite Hr, Hfalsy.
  split; reflexivity.
Qed.

End Routes.

Lemma failures_surface_as_404_witness :
  snd (get_attachment_url Fixture.frames Fixture.server Fixture.unreachable Fixture.no_repr
                          Fixture.exn_text "P1" "TestSuiteA" "test_a")
    = HTTPException 404 (not_found_detail "P1" "TestSuiteA" "test_a")
  /\ snd (route_to_trace Fixture.frames Fixture.server Fixture.unreachable Fixture.no_repr
                         Fixture.exn_text "http://viewer:9323/trace/index.html"
           Fixture.location
                         "P1" "TestSuiteA" "test_a")
     = HTTPException 404 (not_found_detail "P1" "TestSuiteA" "test_a").
Proof.
  apply (failures_surface_as_404
           Fixture.frames Fixture.server Fixture.unreachable Fixture.no_repr Fixture.exn_text
           "http://viewer:9323/trace/index.html" Fixture.location
           "P1" "TestSuiteA" "test_a" (Upstream "ConnectionError")).
  apply suites_fetch_fails. left. reflexivity.
Defined.

Lemma empty_source_is_not_found_witness :
  let record :=
    JObj [("beforeStages",
           JArr [JObj [("attachments", JArr [JObj [("name", JStr "Test Tracing")]])]])] in
  snd (get_attachment_url Fixture.frames Fixture.server
         (Fixture.service Fixture.scenario_suites record)
         Fixture.no_repr Fixture.exn_text
         "P1" "TestSuitePaginationScansList" "test_scans_list_artifact_pagination")
    = HTTPException 404
        (not_found_detail "P1" "TestSuitePaginationScansList"
                          "test_scans_list_artifact_pagination")
  /\ snd (route_to_trace Fixture.frames Fixture.server
            (Fixture.service Fixture.scenario_suites record)
            Fixture.no_repr Fixture.exn_text "http://viewer:9323/trace/index.html"
           Fixture.location
            "P1" "TestSuitePaginationScansList" "test_scans_list_artifact_pagination")
     = HTTPException 404
         (not_found_detail "P1" "TestSuitePaginationScansList"
                           "test_scans_list_artifact_pagination").
Proof.
  intros record.
  apply (empty_source_is_not_found
           Fixture.frames Fixture.server (Fixture.service Fixture.scenario_suites record)
           Fixture.no_repr Fixture.exn_text "http://viewer:9323/trace/index.html"
           Fixture.location
           "P1" "TestSuitePaginationScansList" "test_scans_list_artifact_pagination"
           Fixture.scenario_suites
           (JObj [("name", JStr "test_scans_list_artifact_pagination");
                  ("uid", JStr "abc123")])
           (JStr "abc123") record
           (JObj [("name", JStr "Test Tracing")]) PyNone
           (service_suites_ok _ _) eq_refl eq_refl eq_refl
           (service_record_ok _ _) eq_refl eq_refl eq_refl).
Defined.

(** The redirect of the end-to-end scenario. *)
Example scenario_redirect :
  snd (route_to_trace Fixture.frames Fixture.server
         (Fixture.service Fixture.scenario_suites Fixture.scenario_record)
         Fixture.no_repr Fixture.exn_text "http://viewer:9323/trace/index.html"
           Fixture.location
         "P1" "TestSuitePaginationScansList" "test_scans_list_artifact_pagination")
  = RedirectResponse
      "http://viewer:9323/trace/index.html?trace=http://allure:5050/allure-docker-service/projects/P1/reports/latest/data/attachments/trace-file-xyz.zip"
      302.
Proof. reflexivity. Qed.

(** A source with a space in it: the body of [get_attachment_url] carries
    the url as the handler builds it, the redirect carries it
    percent-encoded. *)
Example redirect_location_is_encoded :
  let record :=
    JObj [("beforeStages",
           JArr [JObj [("attachments",
                        JArr [JObj [("name", JStr "Test Tracing");
                                    ("source", JStr "trace file.zip")]])]])] in
  snd (get_attachment_url Fixture.frames Fixture.server
         (Fixture.service Fixture.scenario_suites record)
         Fixture.no_repr Fixture.exn_text
         "P1" "TestSuitePaginationScansList" "test_scans_list_artifact_pagination")
  = Body (JObj [("project_id", JStr "P1");
                ("suite_name", JStr "TestSuitePaginationScansList");
                ("test_name", JStr "test_scans_list_artifact_pagination");
                ("attachment_url",
                 JStr "http://allure:5050/allure-docker-service/projects/P1/reports/latest/data/attachments/trace file.zip")])
  /\ snd (route_to_trace Fixture.frames Fixture.server
            (Fixture.service Fixture.scenario_suites record)
            Fixture.no_repr Fixture.exn_text "http://viewer:9323/trace/index.html"
            Fixture.location
            "P1" "TestSuitePaginationScansList" "test_scans_list_artifact_pagination")
     = RedirectResponse
         "http://viewer:9323/trace/index.html?trace=http://allure:5050/allure-docker-service/projects/P1/reports/latest/data/attachments/trace%20file.zip"
         302.
Proof. split; reflexivity. Qed.

(** A record nested deeper than the recursion budget: the locator's
    [RecursionError] is caught by the coordinator like any other failure,
    and both routes answer 404. *)
Example too_deep_record_is_not_found :
  get_attachment_by_name Fixture.frames (Fixture.deep_record 901) "Test Tracing"
  = Raise RecursionError
  /\ snd (get_test_attachments Fixture.frames Fixture.server
            (Fixture.service Fixture.scenario_suites (Fixture.deep_record 901))
            Fixture.no_repr Fixture.exn_text
            "P1" "TestSuitePaginationScansList" "test_scans_list_artifact_pagination")
     = Return PyNone
  /\ snd (route_to_trace Fixture.frames Fixture.server
            (Fixture.service Fixture.scenario_suites (Fixture.deep_record 901))
            Fixture.no_repr Fixture.exn_text "http://viewer:9323/trace/index.html"
            Fixture.location
            "P1" "TestSuitePaginationScansList" "test_scans_list_artifact_pagination")
     = HTTPException 404
         (not_found_detail "P1" "TestSuitePaginationScansList"
                           "test_scans_list_artifact_pagination").
Proof. repeat split; vm_compute; reflexivity. Qed.
